(** * DuckDocs: [Resources/deepseek_ocr.py]

    A shallow embedding of the screenshot-to-markdown command-line script:
    the JSON text it prints ([json.dumps] with Python's defaults), the
    dependency gate [check_dependencies], the analyzer [analyze_image] and the
    driver [main], over an explicit description of what the script touches
    outside itself (importable modules, the filesystem, the inference runtime
    and the image library).

    Conventions of the model.
    - A Python [str] is a [string]; a character stands for the code point of
      the same number (code points below 256).
    - The external calls are fields of a [world]; a call either returns or
      raises an exception of class [Exception], represented by its [str(e)].
    - Every observable action is appended to a trace of [event]s; the text on
      standard output is read off the trace. The world does not change
      during a run: a module that resolved once resolves again. *)

From Stdlib Require Import String Ascii List ZArith Bool Arith Lia.
Import ListNotations.
Open Scope string_scope.
Open Scope nat_scope.
Set Warnings "-register-all".

(** ** Characters the script's output is made of *)

Definition dquote : ascii := "034"%char.
Definition backslash : ascii := "092"%char.
Definition newline : ascii := "010"%char.
Definition str1 (c : ascii) : string := String c EmptyString.

(** ** JSON values and [json.dumps] *)

Module Json.

(** The Python values the script serialises: [str], [list] and [dict]
    (a dict keeps insertion order, so an association list). *)
Inductive json : Type :=
| JStr (s : string)
| JList (items : list json)
| JObj (members : list (string * json)).

(** [format(n, "x")] for one hexadecimal digit, lower case. *)
Definition hex_digit (n : nat) : ascii :=
  if n <? 10 then ascii_of_nat (48 + n) else ascii_of_nat (87 + n).

(** One character under [ensure_ascii=True]: the short escapes of
    [ESCAPE_DCT], backslash-u-00xx for every other character outside space..tilde. *)
Definition escape_char (c : ascii) : string :=
  let n := nat_of_ascii c in
  if n =? 34 then String backslash (str1 dquote)
  else if n =? 92 then String backslash (str1 backslash)
  else if n =? 8 then String backslash "b"
  else if n =? 12 then String backslash "f"
  else if n =? 10 then String backslash "n"
  else if n =? 13 then String backslash "r"
  else if n =? 9 then String backslash "t"
  else if (n <? 32) || (126 <? n) then
    String backslash
      (String "u" (String "0" (String "0"
         (String (hex_digit (n / 16)) (str1 (hex_digit (n mod 16)))))))
  else str1 c.

Fixpoint escape (s : string) : string :=
  match s with
  | EmptyString => EmptyString
  | String c s' => escape_char c ++ escape s'
  end.

(** [encode_basestring_ascii]: the escaped text between double quotes. *)
Definition dumps_str (s : string) : string :=
  String dquote (escape s ++ str1 dquote).

(** [json.dumps(v)] with the default separators [", "] and [": "]. *)
Fixpoint dumps (v : json) : string :=
  match v with
  | JStr s => dumps_str s
  | JList items =>
      let fix elements (l : list json) : string :=
        match l with
        | [] => "]"
        | x :: l' => ", " ++ dumps x ++ elements l'
        end in
      match items with
      | [] => "[]"
      | x :: l => "[" ++ dumps x ++ elements l
      end
  | JObj members =>
      let fix pairs (l : list (string * json)) : string :=
        match l with
        | [] => "}"
        | (k, x) :: l' => ", " ++ dumps_str k ++ ": " ++ dumps x ++ pairs l'
        end in
      match members with
      | [] => "{}"
      | (k, x) :: l => "{" ++ dumps_str k ++ ": " ++ dumps x ++ pairs l
      end
  end.

(** The two inner loops of [dumps], named for the proofs. *)
Fixpoint dumps_elements (l : list json) : string :=
  match l with
  | [] => "]"
  | x :: l' => ", " ++ dumps x ++ dumps_elements l'
  end.

Fixpoint dumps_pairs (l : list (string * json)) : string :=
  match l with
  | [] => "}"
  | (k, x) :: l' => ", " ++ dumps_str k ++ ": " ++ dumps x ++ dumps_pairs l'
  end.

(** ** Reading JSON text back

    A reader for the JSON grammar restricted to strings, arrays and objects,
    with insignificant whitespace; it decides what "valid JSON with a
    top-level key" means for a printed text. *)

Definition is_ws (c : ascii) : bool :=
  let n := nat_of_ascii c in
  (n =? 32) || (n =? 9) || (n =? 10) || (n =? 13).

Fixpoint skip_ws (s : string) : string :=
  match s with
  | String c s' => if is_ws c then skip_ws s' else s
  | EmptyString => EmptyString
  end.

Definition hex_value (c : ascii) : option nat :=
  let n := nat_of_ascii c in
  if (48 <=? n) && (n <=? 57) then Some (n - 48)
  else if (97 <=? n) && (n <=? 102) then Some (n - 87)
  else if (65 <=? n) && (n <=? 70) then Some (n - 55)
  else None.

(** The code point written as backslash, u and four hexadecimal digits, when
    it is below 256. *)
Definition unicode_escape (a b c d : ascii) : option ascii :=
  match hex_value a, hex_value b, hex_value c, hex_value d with
  | Some x, Some y, Some z, Some t =>
      let n := ((x * 16 + y) * 16 + z) * 16 + t in
      if n <? 256 then Some (ascii_of_nat n) else None
  | _, _, _, _ => None
  end.

Definition cons_char (c : ascii) (r : option (string * string))
  : option (string * string) :=
  match r with
  | Some (t, rest) => Some (String c t, rest)
  | None => None
  end.

(** The characters of a string after its opening quote, up to and including
    the closing quote; control characters must be escaped. *)
Fixpoint parse_string_body (s : string) : option (string * string) :=
  match s with
  | EmptyString => None
  | String c s' =>
      if Ascii.eqb c dquote then Some (EmptyString, s')
      else if Ascii.eqb c backslash then
        match s' with
        | String e s'' =>
            if Ascii.eqb e dquote then cons_char dquote (parse_string_body s'')
            else if Ascii.eqb e backslash then cons_char backslash (parse_string_body s'')
            else if Ascii.eqb e "/" then cons_char "/" (parse_string_body s'')
            else if Ascii.eqb e "b" then cons_char "008" (parse_string_body s'')
            else if Ascii.eqb e "f" then cons_char "012" (parse_string_body s'')
            else if Ascii.eqb e "n" then cons_char "010" (parse_string_body s'')
            else if Ascii.eqb e "r" then cons_char "013" (parse_string_body s'')
            else if Ascii.eqb e "t" then cons_char "009" (parse_string_body s'')
            else if Ascii.eqb e "u" then
              match s'' with
              | String h1 (String h2 (String h3 (String h4 s3))) =>
                  match unicode_escape h1 h2 h3 h4 with
                  | Some u => cons_char u (parse_string_body s3)
                  | None => None
                  end
              | _ => None
              end
            else None
        | EmptyString => None
        end
      else if nat_of_ascii c <? 32 then None
      else cons_char c (parse_string_body s')
  end.

(** A key, the colon after it, and the whitespace around the colon. *)
Definition parse_key (s : string) : option (string * string) :=
  match skip_ws s with
  | String c r =>
      if Ascii.eqb c dquote then
        match parse_string_body r with
        | Some (k, r') =>
            match skip_ws r' with
            | String c' r'' => if Ascii.eqb c' ":" then Some (k, r'') else None
            | EmptyString => None
            end
        | None => None
        end
      else None
  | EmptyString => None
  end.

Fixpoint parse_value (fuel : nat) (s : string) : option (json * string) :=
  match fuel with
  | O => None
  | S fuel' =>
      match skip_ws s with
      | String c r =>
          if Ascii.eqb c dquote then
            match parse_string_body r with
            | Some (t, r') => Some (JStr t, r')
            | None => None
            end
          else if Ascii.eqb c "[" then
            match skip_ws r with
            | String c' r' =>
                if Ascii.eqb c' "]" then Some (JList [], r')
                else match parse_elements fuel' r with
                     | Some (l, r'') => Some (JList l, r'')
                     | None => None
                     end
            | EmptyString => None
            end
          else if Ascii.eqb c "{" then
            match skip_ws r with
            | String c' r' =>
                if Ascii.eqb c' "}" then Some (JObj [], r')
                else match parse_members fuel' r with
                     | Some (l, r'') => Some (JObj l, r'')
                     | None => None
                     end
            | EmptyString => None
            end
          else None
      | EmptyString => None
      end
  end
with parse_elements (fuel : nat) (s : string) : option (list json * string) :=
  match fuel with
  | O => None
  | S fuel' =>
      match parse_value fuel' s with
      | Some (x, r) =>
          match skip_ws r with
          | String c r' =>
              if Ascii.eqb c "," then
                match parse_elements fuel' r' with
                | Some (l, r'') => Some (x :: l, r'')
                | None => None
                end
              else if Ascii.eqb c "]" then Some ([x], r')
              else None
          | EmptyString => None
          end
      | None => None
      end
  end
with parse_members (fuel : nat) (s : string)
  : option (list (string * json) * string) :=
  match fuel with
  | O => None
  | S fuel' =>
      match parse_key s with
      | Some (k, r0) =>
          match parse_value fuel' r0 with
          | Some (x, r) =>
              match skip_ws r with
              | String c r' =>
                  if Ascii.eqb c "," then
                    match parse_members fuel' r' with
                    | Some (l, r'') => Some ((k, x) :: l, r'')
                    | None => None
                    end
                  else if Ascii.eqb c "}" then Some ([(k, x)], r')
                  else None
              | EmptyString => None
              end
          | None => None
          end
      | None => None
      end
  end.

(** The recursion depth [parse_value] needs for the text of a value. *)
Fixpoint weight (v : json) : nat :=
  match v with
  | JStr _ => 1
  | JList items =>
      S ((fix elements (l : list json) : nat :=
            match l with
            | [] => 0
            | x :: l' => S (weight x + elements l')
            end) items)
  | JObj members =>
      S ((fix pairs (l : list (string * json)) : nat :=
            match l with
            | [] => 0
            | (_, x) :: l' => S (weight x + pairs l')
            end) members)
  end.

Fixpoint weight_elements (l : list json) : nat :=
  match l with
  | [] => 0
  | x :: l' => S (weight x + weight_elements l')
  end.

Fixpoint weight_pairs (l : list (string * json)) : nat :=
  match l with
  | [] => 0
  | (_, x) :: l' => S (weight x + weight_pairs l')
  end.

(** A whole text is one JSON value, with nothing but whitespace after it. *)
Definition loads (s : string) : option json :=
  match parse_value (S (String.length s)) s with
  | Some (v, rest) =>
      match skip_ws rest with
      | EmptyString => Some v
      | String _ _ => None
      end
  | None => None
  end.

Fixpoint assoc (k : string) (l : list (string * json)) : option json :=
  match l with
  | [] => None
  | (k', v) :: l' => if String.eqb k k' then Some v else assoc k l'
  end.

(** The value under a key of a text that is a JSON object. *)
Definition top_level (text key : string) : option json :=
  match loads text with
  | Some (JObj members) => assoc key members
  | _ => None
  end.

End Json.
Import Json.

(** ** Effects: traces, [sys.exit] and uncaught exceptions *)

(** What an external call hands back: a value, or an exception of class
    [Exception] given by its [str(e)]. *)
Inductive py_result (A : Type) : Type :=
| Returned (a : A)
| Raised (message : string).
Arguments Returned {A} a.
Arguments Raised {A} message.

(** How a piece of the script ends: it falls through with a value, it calls
    [sys.exit(status)], or an exception propagates out of it. *)
Inductive outcome (A : Type) : Type :=
| Normal (a : A)
| SysExit (status : Z)
| Uncaught (exc : string).
Arguments Normal {A} a.
Arguments SysExit {A} status.
Arguments Uncaught {A} exc.

(** A computation extends the trace of events seen so far. *)
Definition prog (E A : Type) : Type := list E -> outcome A * list E.

Definition ret {E A} (a : A) : prog E A := fun tr => (Normal a, tr).

Definition bind {E A B} (m : prog E A) (k : A -> prog E B) : prog E B :=
  fun tr =>
    match m tr with
    | (Normal a, tr') => k a tr'
    | (SysExit n, tr') => (SysExit n, tr')
    | (Uncaught e, tr') => (Uncaught e, tr')
    end.

Definition emit {E} (e : E) : prog E unit := fun tr => (Normal tt, (tr ++ [e])%list).
Definition sys_exit {E A} (status : Z) : prog E A := fun tr => (SysExit status, tr).
Definition raise {E A} (exc : string) : prog E A := fun tr => (Uncaught exc, tr).

Declare Scope prog_scope.
Delimit Scope prog_scope with prog.
Notation "x <- m ;; k" := (bind m (fun x => k))
  (at level 61, m at next level, right associativity) : prog_scope.
Notation "m ;; k" := (bind m (fun _ => k))
  (at level 61, right associativity) : prog_scope.
Open Scope prog_scope.

(** ** The command line *)

(** The options an invocation supplies, one field per [add_argument] of
    [main]: [None] for an option left out. How argparse recognises the options
    in [sys.argv] is the library's business and is not modelled, nor is its
    own [-h]; a value of [--max-tokens] is the integer [type=int] makes of
    it, so a command line whose value is no integer is outside the type. *)
Record cmdline : Type := {
  cl_image : option string;
  cl_prompt : option string;
  cl_max_tokens : option Z;
  cl_check_deps : bool;
  cl_json : bool
}.

(** The namespace [parse_args] returns. *)
Record namespace : Type := {
  args_image : string;
  args_prompt : option string;
  args_max_tokens : Z;
  args_check_deps : bool;
  args_json : bool
}.

Definition default_max_tokens : Z := 2048.

Definition usage_error : string :=
  "the following arguments are required: --image/-i".

(** ** The script *)

Section Script.

Context {Model Tokenizer Image : Type}.

(** Everything outside the script that its run depends on. [path_exists p]
    is what [Path(p).exists()] does: it answers with a boolean, or lets
    through the [OSError] of the underlying [stat] that it does not take for
    a missing file (a name too long, a directory that cannot be searched). *)
Record world : Type := {
  importable : string -> bool;
  path_exists : string -> py_result bool;
  mlx_load : string -> py_result (Model * Tokenizer);
  Image_open : string -> py_result Image;
  Image_mode : Image -> string;
  Image_convert : Image -> string -> py_result Image;
  mlx_generate :
    Model -> Tokenizer -> string -> list Image -> Z -> bool -> py_result string
}.

Inductive event : Type :=
| EvStdout (text : string)
| EvStderr (text : string)
| EvImport (module : string) (names : list string)
| EvPathExists (path : string)
| EvLoad (model_id : string)
| EvImageOpen (path : string)
| EvImageConvert (mode : string)
| EvGenerate (model : Model) (tokenizer : Tokenizer) (prompt : string)
    (images : list Image) (max_tokens : Z) (verbose : bool).

Variable w : world.

(** [print(s)]: one write of [s] and a newline to standard output. *)
Definition print (s : string) : prog event unit := emit (EvStdout s).

(** [try: import m] or [try: from m import names], with
    [except ImportError:]; tells whether the import resolved. *)
Definition try_import (m : string) (names : list string) : prog event bool :=
  emit (EvImport m names) ;; ret (importable w m).

(** [from m import names] outside any [try]: an unresolvable module raises.
    A module that resolves is taken to provide the names imported from it. *)
Definition import_from (m : string) (names : list string) : prog event unit :=
  emit (EvImport m names) ;;
  if importable w m then ret tt
  else raise ("ModuleNotFoundError: No module named " ++ m).

Definition check_dependencies : prog event unit :=
  let missing := @nil string in
  ok_mlx <- try_import "mlx_lm" [] ;;
  let missing := if ok_mlx then missing else (missing ++ ["mlx-lm"])%list in
  ok_pil <- try_import "PIL" ["Image"] ;;
  let missing := if ok_pil then missing else (missing ++ ["pillow"])%list in
  match missing with
  | [] => ret tt
  | _ :: _ =>
      print (dumps (JObj
        [("error", JStr "missing_dependencies");
         ("packages", JList (map JStr missing));
         ("install_command", JStr ("pip install " ++ String.concat " " missing))])) ;;
      sys_exit 1
  end.

Definition default_prompt : string :=
  "Analyze this UI screenshot and generate markdown documentation."
  ++ str1 newline ++ str1 newline
  ++ "Describe:" ++ str1 newline
  ++ "1. What UI elements are visible (buttons, menus, text fields, etc.)"
  ++ str1 newline
  ++ "2. The current state of the interface" ++ str1 newline
  ++ "3. Any text content visible" ++ str1 newline
  ++ "4. The layout and organization" ++ str1 newline ++ str1 newline
  ++ "Format your response as clean markdown suitable for documentation.".

Definition model_id : string := "mlx-community/DeepSeek-OCR-2-4bit".

(** The body of the second [try]: open the image, convert it unless its mode
    is already RGB. *)
Definition load_and_prepare (image_path : string) : prog event (py_result Image) :=
  emit (EvImageOpen image_path) ;;
  match Image_open w image_path with
  | Raised e => ret (Raised e)
  | Returned image =>
      if negb (String.eqb (Image_mode w image) "RGB") then
        emit (EvImageConvert "RGB") ;; ret (Image_convert w image "RGB")
      else ret (Returned image)
  end.

Definition analyze_image (image_path : string) (prompt : option string)
    (max_tokens : Z) : prog event string :=
  import_from "mlx_lm" ["load"; "generate"] ;;
  import_from "PIL" ["Image"] ;;
  let prompt := match prompt with None => default_prompt | Some p => p end in
  emit (EvLoad model_id) ;;
  match mlx_load w model_id with
  | Raised e =>
      ret (dumps (JObj
        [("error", JStr "model_load_failed");
         ("message", JStr e);
         ("model", JStr model_id)]))
  | Returned (model, tokenizer) =>
      opened <- load_and_prepare image_path ;;
      match opened with
      | Raised e =>
          ret (dumps (JObj
            [("error", JStr "image_load_failed");
             ("message", JStr e);
             ("path", JStr image_path)]))
      | Returned image =>
          emit (EvGenerate model tokenizer prompt [image] max_tokens false) ;;
          match mlx_generate w model tokenizer prompt [image] max_tokens false with
          | Returned response => ret response
          | Raised e =>
              ret (dumps (JObj
                [("error", JStr "generation_failed");
                 ("message", JStr e)]))
          end
      end
  end.

(** [parser.parse_args()]: [--image] is required, [--prompt] defaults to
    [None], [--max-tokens] to 2048, the two flags to [False]. A command line
    without [--image] is a usage error: a message on standard error and
    exit status 2. *)
Definition parse_args (c : cmdline) : prog event namespace :=
  match cl_image c with
  | None => emit (EvStderr usage_error) ;; sys_exit 2
  | Some path =>
      ret {| args_image := path;
             args_prompt := cl_prompt c;
             args_max_tokens :=
               match cl_max_tokens c with
               | Some n => n
               | None => default_max_tokens
               end;
             args_check_deps := cl_check_deps c;
             args_json := cl_json c |}
  end.

Definition main (c : cmdline) : prog event unit :=
  args <- parse_args c ;;
  (if args_check_deps args then
     check_dependencies ;;
     print (dumps (JObj [("status", JStr "ok")])) ;;
     sys_exit 0
   else ret tt) ;;
  exists_ <- (emit (EvPathExists (args_image args)) ;;
              match path_exists w (args_image args) with
              | Returned b => ret b
              | Raised e => raise e
              end) ;;
  (if negb exists_ then
     let error := JObj [("error", JStr "file_not_found");
                        ("path", JStr (args_image args))] in
     print (dumps error) ;;
     sys_exit 1
   else ret tt) ;;
  check_dependencies ;;
  result <- analyze_image (args_image args) (args_prompt args)
              (args_max_tokens args) ;;
  if args_json args then print (dumps (JObj [("result", JStr result)]))
  else print result.

(** ** Running the script as a process *)

(** Exit status and trace of a run from an empty trace: 0 when [main]
    returns, the argument of [sys.exit] otherwise, 1 with a traceback on
    standard error for an exception nobody caught. *)
Definition run (m : prog event unit) : Z * list event :=
  match m [] with
  | (Normal _, tr) => (0%Z, tr)
  | (SysExit n, tr) => (n, tr)
  | (Uncaught e, tr) => (1%Z, (tr ++ [EvStderr e])%list)
  end.

Definition exit_status (c : cmdline) : Z := fst (run (main c)).
Definition trace (c : cmdline) : list event := snd (run (main c)).

(** The arguments of the [print] calls of a trace, in order. *)
Fixpoint printed (tr : list event) : list string :=
  match tr with
  | [] => []
  | EvStdout s :: tr' => s :: printed tr'
  | _ :: tr' => printed tr'
  end.

(** The text on standard output: each printed value and its newline. *)
Fixpoint stdout_text (tr : list event) : string :=
  match tr with
  | [] => EmptyString
  | EvStdout s :: tr' => s ++ str1 newline ++ stdout_text tr'
  | _ :: tr' => stdout_text tr'
  end.

(** The (prompt, max_tokens, verbose) of each generation call of a trace. *)
Fixpoint generate_calls (tr : list event) : list (string * Z * bool) :=
  match tr with
  | [] => []
  | EvGenerate _ _ p _ n v :: tr' => (p, n, v) :: generate_calls tr'
  | _ :: tr' => generate_calls tr'
  end.

(** The first statement of [check_dependencies]: a plain [import]. *)
Definition is_dependency_probe (e : event) : bool :=
  match e with EvImport _ [] => true | _ => false end.

Definition is_path_check (e : event) : bool :=
  match e with EvPathExists _ => true | _ => false end.

(** What only [analyze_image] does: it imports [load] from the runtime,
    asks for the model, opens or converts the image, generates. *)
Definition is_analysis (e : event) : bool :=
  match e with
  | EvImport _ names => existsb (String.eqb "load") names
  | EvLoad _ | EvImageOpen _ | EvImageConvert _ | EvGenerate _ _ _ _ _ _ => true
  | _ => false
  end.

Definition reached_dependency_check (tr : list event) : bool :=
  existsb is_dependency_probe tr.
Definition reached_path_check (tr : list event) : bool := existsb is_path_check tr.
Definition reached_analysis (tr : list event) : bool := existsb is_analysis tr.

(** The same command line with or without [--json]. *)
Definition with_json (b : bool) (c : cmdline) : cmdline :=
  {| cl_image := cl_image c;
     cl_prompt := cl_prompt c;
     cl_max_tokens := cl_max_tokens c;
     cl_check_deps := cl_check_deps c;
     cl_json := b |}.

(** The names of the packages the dependency check cannot resolve. *)
Definition missing_packages : list string :=
  ((if importable w "mlx_lm" then [] else ["mlx-lm"])
   ++ (if importable w "PIL" then [] else ["pillow"]))%list.

(** What the second [try] of the analyzer yields, as a value. *)
Definition prepared_image (image_path : string) : py_result Image :=
  match Image_open w image_path with
  | Raised e => Raised e
  | Returned image =>
      if negb (String.eqb (Image_mode w image) "RGB")
      then Image_convert w image "RGB"
      else Returned image
  end.

(** The error objects of the script. *)
Definition missing_dependencies_object (packages : list string) : json :=
  JObj [("error", JStr "missing_dependencies");
        ("packages", JList (map JStr packages));
        ("install_command",
         JStr ("pip install " ++ String.concat " " packages))].

Definition file_not_found_object (path : string) : json :=
  JObj [("error", JStr "file_not_found"); ("path", JStr path)].

Definition model_load_failed_object (message : string) : json :=
  JObj [("error", JStr "model_load_failed");
        ("message", JStr message);
        ("model", JStr model_id)].

Definition image_load_failed_object (message path : string) : json :=
  JObj [("error", JStr "image_load_failed");
        ("message", JStr message);
        ("path", JStr path)].

Definition generation_failed_object (message : string) : json :=
  JObj [("error", JStr "generation_failed"); ("message", JStr message)].

(** The text of the status object, character by character. *)
Definition status_ok_text : string :=
  "{" ++ str1 dquote ++ "status" ++ str1 dquote ++ ": "
  ++ str1 dquote ++ "ok" ++ str1 dquote ++ "}".

(** The text printed with [--json] is valid JSON whose top-level [result]
    key holds exactly the text printed without it. *)
Definition json_envelope (json_out plain_out : list string) : Prop :=
  exists text value,
    json_out = [text] /\ plain_out = [value]
    /\ top_level text "result" = Some (JStr value).

End Script.

Arguments world : clear implicits.
Arguments event : clear implicits.

(** ** Concrete worlds and command lines

    The external libraries replaced by stubs over one-element handle types:
    [load], [open] and [generate] answer with fixed outcomes, a file exists
    when it is called [shot.png], and the existence test raises on a name of
    more than 255 characters. *)

Definition stub_world (has_mlx has_pil : bool)
    (loaded : py_result (unit * unit)) (opened : py_result unit)
    (generated : string -> py_result string) : world unit unit unit :=
  {| importable := fun m =>
       if String.eqb m "mlx_lm" then has_mlx
       else if String.eqb m "PIL" then has_pil else false;
     path_exists := fun p =>
       if 255 <? String.length p then Raised "File name too long"
       else Returned (String.eqb p "shot.png");
     mlx_load := fun _ => loaded;
     Image_open := fun _ => opened;
     Image_mode := fun _ => "RGB";
     Image_convert := fun i _ => Returned i;
     mlx_generate := fun _ _ prompt _ _ _ => generated prompt |}.

Definition markdown : string := "## Title" ++ str1 newline ++ "- item".

(** Everything installed and working; generation answers [markdown]. *)
Definition good_world : world unit unit unit :=
  stub_world true true (Returned (tt, tt)) (Returned tt)
    (fun _ => Returned markdown).

Definition invocation (image prompt : option string) (max_tokens : option Z)
    (check_deps json : bool) : cmdline :=
  {| cl_image := image; cl_prompt := prompt; cl_max_tokens := max_tokens;
     cl_check_deps := check_deps; cl_json := json |}.

(** [--image missing.png --json]: the file does not exist. *)
Definition missing_png_json : cmdline :=
  invocation (Some "missing.png") None None false true.

(** [--check-deps] alone. *)
Definition bare_check_deps : cmdline := invocation None None None true false.

(** [--image shot.png], with or without [--json]. *)
Definition shot_png (json : bool) : cmdline :=
  invocation (Some "shot.png") None None false json.

(** The inference runtime is not installed. *)
Definition world_without_mlx : world unit unit unit :=
  stub_world false true (Returned (tt, tt)) (Returned tt)
    (fun _ => Returned markdown).

(** The model cannot be loaded. *)
Definition world_load_fails : world unit unit unit :=
  stub_world true true (Raised "no weights") (Returned tt)
    (fun _ => Returned markdown).

(** ** Further views of a run *)

Section Views.

Context {Model Tokenizer Image : Type}.
Implicit Types (w : world Model Tokenizer Image) (c : cmdline)
  (tr : list (event Model Tokenizer Image)).

(** What was written to standard error. *)
Fixpoint stderr_lines tr : list string :=
  match tr with
  | [] => []
  | EvStderr s :: tr' => s :: stderr_lines tr'
  | _ :: tr' => stderr_lines tr'
  end.

(** The identifiers [load] was called with. *)
Fixpoint load_calls tr : list string :=
  match tr with
  | [] => []
  | EvLoad id :: tr' => id :: load_calls tr'
  | _ :: tr' => load_calls tr'
  end.

(** The paths [Image.open] was called with. *)
Fixpoint open_calls tr : list string :=
  match tr with
  | [] => []
  | EvImageOpen p :: tr' => p :: open_calls tr'
  | _ :: tr' => open_calls tr'
  end.

(** The modes [convert] was called with. *)
Fixpoint convert_calls tr : list string :=
  match tr with
  | [] => []
  | EvImageConvert m :: tr' => m :: convert_calls tr'
  | _ :: tr' => convert_calls tr'
  end.

(** The paths whose existence was tested. *)
Fixpoint path_checks tr : list string :=
  match tr with
  | [] => []
  | EvPathExists p :: tr' => p :: path_checks tr'
  | _ :: tr' => path_checks tr'
  end.

(** The [images] argument of each generation call. *)
Fixpoint generate_images tr : list (list Image) :=
  match tr with
  | [] => []
  | EvGenerate _ _ _ images _ _ :: tr' => images :: generate_images tr'
  | _ :: tr' => generate_images tr'
  end.

(** Everything a run did except writing to standard output. *)
Fixpoint effects tr : list (event Model Tokenizer Image) :=
  match tr with
  | [] => []
  | EvStdout _ :: tr' => effects tr'
  | e :: tr' => e :: effects tr'
  end.

Definition effective_prompt c : string :=
  match cl_prompt c with Some x => x | None => default_prompt end.

Definition effective_max_tokens c : Z :=
  match cl_max_tokens c with Some n => n | None => default_max_tokens end.

(** The last statement of [main]: the result as it is, or in the envelope. *)
Definition output_text (json : bool) (result : string) : string :=
  if json then dumps (JObj [("result", JStr result)]) else result.

(** The run gets as far as calling the analyzer. *)
Definition reaches_analyzer w c (p : string) : Prop :=
  cl_image c = Some p /\ cl_check_deps c = false
  /\ path_exists w p = Returned true
  /\ importable w "mlx_lm" = true /\ importable w "PIL" = true.

(** The existence test, if the run gets to it, answers with a boolean. *)
Definition path_test_returns w c (p : string) : Prop :=
  cl_check_deps c = true \/ exists b, path_exists w p = Returned b.

(** What the third [try] of the analyzer makes of a generation call. *)
Definition generation_outcome (r : py_result string) : string :=
  match r with
  | Returned response => response
  | Raised e => dumps (generation_failed_object e)
  end.

(** The events of the two import probes of [check_dependencies], of the
    first three statements of the analyzer, and of its second [try]. *)
Definition dependency_probes : list (event Model Tokenizer Image) :=
  [EvImport "mlx_lm" []; EvImport "PIL" ["Image"]].

Definition analysis_prefix : list (event Model Tokenizer Image) :=
  [EvImport "mlx_lm" ["load"; "generate"]; EvImport "PIL" ["Image"];
   EvLoad model_id].

Definition prepare_events w (path : string) : list (event Model Tokenizer Image) :=
  EvImageOpen path ::
  match Image_open w path with
  | Returned image =>
      if negb (String.eqb (Image_mode w image) "RGB")
      then [EvImageConvert "RGB"] else []
  | Raised _ => []
  end.

(** Exit status and trace of [main] in closed form, the monad computed
    away: one branch per path through the function. *)
Definition expected_run w c : Z * list (event Model Tokenizer Image) :=
  match cl_image c with
  | None => (2%Z, [EvStderr usage_error])
  | Some p =>
      let resolved := importable w "mlx_lm" && importable w "PIL" in
      let missing :=
        EvStdout (dumps (missing_dependencies_object (missing_packages w))) in
      if cl_check_deps c then
        if resolved
        then (0%Z, (dependency_probes ++ [EvStdout status_ok_text])%list)
        else (1%Z, (dependency_probes ++ [missing])%list)
      else match path_exists w p with
      | Raised e => (1%Z, [EvPathExists p; EvStderr e])
      | Returned false =>
        (1%Z, [EvPathExists p; EvStdout (dumps (file_not_found_object p))])
      | Returned true =>
      if negb resolved then
        (1%Z, (EvPathExists p :: dependency_probes ++ [missing])%list)
      else
        (0%Z,
         (EvPathExists p :: dependency_probes ++ analysis_prefix
          ++ match mlx_load w model_id with
             | Raised e =>
                 [EvStdout (output_text (cl_json c)
                              (dumps (model_load_failed_object e)))]
             | Returned (m, t) =>
                 prepare_events w p
                 ++ match prepared_image w p with
                    | Raised e =>
                        [EvStdout (output_text (cl_json c)
                                     (dumps (image_load_failed_object e p)))]
                    | Returned image =>
                        [EvGenerate m t (effective_prompt c) [image]
                           (effective_max_tokens c) false;
                         EvStdout
                           (output_text (cl_json c)
                              match mlx_generate w m t (effective_prompt c)
                                      [image] (effective_max_tokens c) false with
                              | Returned response => response
                              | Raised e => dumps (generation_failed_object e)
                              end)]
                    end
             end)%list)
      end
  end.

End Views.

(** Characters from space to tilde, and texts made of them only: such a
    text holds no newline. *)
Definition printable (c : ascii) : bool :=
  let n := nat_of_ascii c in (32 <=? n) && (n <=? 126).

Fixpoint all_printable (s : string) : bool :=
  match s with
  | EmptyString => true
  | String c s' => printable c && all_printable s'
  end.

(** The screenshot opens in mode RGBA ([false]) and converts to an RGB
    image ([true]). *)
Definition world_rgba : world unit unit bool :=
  {| importable := fun _ => true;
     path_exists := fun _ => Returned true;
     mlx_load := fun _ => Returned (tt, tt);
     Image_open := fun _ => Returned false;
     Image_mode := fun image => if image then "RGB" else "RGBA";
     Image_convert := fun _ _ => Returned true;
     mlx_generate := fun _ _ _ images _ _ =>
       match images with
       | [true] => Returned "one RGB image"
       | _ => Returned "something else"
       end |}.

(** A generation stub that answers with the arguments it received. *)
Definition recording_world : world unit unit unit :=
  {| importable := fun _ => true;
     path_exists := fun _ => Returned true;
     mlx_load := fun _ => Returned (tt, tt);
     Image_open := fun _ => Returned tt;
     Image_mode := fun _ => "RGB";
     Image_convert := fun i _ => Returned i;
     mlx_generate := fun _ _ prompt _ max_tokens verbose =>
       Returned
         (prompt ++ " / "
          ++ (if Z.eqb max_tokens 10 then "10"
              else if Z.eqb max_tokens 2048 then "2048" else "another cap")
          ++ " / " ++ (if verbose then "verbose" else "quiet")) |}.

(** A name of 300 characters, more than a file name may have. *)
Fixpoint repeat_char (c : ascii) (n : nat) : string :=
  match n with
  | O => EmptyString
  | S n' => String c (repeat_char c n')
  end.

Definition long_name : string := repeat_char "a" 300.

(** [--image] with that name. *)
Definition long_name_invocation : cmdline :=
  invocation (Some long_name) None None false false.

(** [--image missing.png] in plain mode. *)
Definition missing_png : cmdline :=
  invocation (Some "missing.png") None None false false.

(** * Facts about the JSON text *)

Section JsonFacts.

Lemma dumps_list_cons x l :
  dumps (JList (x :: l)) = "[" ++ dumps x ++ dumps_elements l.
Proof. destruct l; reflexivity. Qed.

Lemma dumps_obj_cons k x l :
  dumps (JObj ((k, x) :: l)) = "{" ++ dumps_str k ++ ": " ++ dumps x ++ dumps_pairs l.
Proof. destruct l; reflexivity. Qed.

(** Reading one escaped character gives the character back. *)
Lemma parse_escape_char c s :
  parse_string_body (escape_char c ++ s) = cons_char c (parse_string_body s).
Proof. destruct c as [[] [] [] [] [] [] [] []]; reflexivity. Qed.

Lemma app_assoc_str (a b c : string) : (a ++ b) ++ c = a ++ b ++ c.
Proof. induction a as [|x a IH]; simpl; [reflexivity|now rewrite IH]. Qed.

Lemma parse_escape t rest :
  parse_string_body (escape t ++ String dquote rest) = Some (t, rest).
Proof.
  induction t as [|c t IH]; [reflexivity|].
  simpl escape. rewrite app_assoc_str, parse_escape_char, IH. reflexivity.
Qed.


Lemma weight_list l : weight (JList l) = S (weight_elements l).
Proof. reflexivity. Qed.

Lemma weight_obj l : weight (JObj l) = S (weight_pairs l).
Proof. reflexivity. Qed.

Lemma weight_pos j : 1 <= weight j.
Proof. destruct j; simpl; lia. Qed.

(** The text of a value starts with its opening quote, bracket or brace. *)
Lemma dumps_head j :
  exists c tl, dumps j = String c tl /\ is_ws c = false
    /\ Ascii.eqb c "]" = false /\ Ascii.eqb c "}" = false.
Proof.
  destruct j as [t|[|x l]|[|[k x] l]].
  - exists dquote, (escape t ++ str1 dquote). repeat split.
  - exists "["%char, "]". repeat split.
  - rewrite dumps_list_cons. eexists _, _. repeat split.
  - exists "{"%char, "}". repeat split.
  - rewrite dumps_obj_cons. eexists _, _. repeat split.
Qed.

Lemma skip_ws_dumps j r : skip_ws (dumps j ++ r) = dumps j ++ r.
Proof.
  destruct (dumps_head j) as (c & tl & -> & Hc & _).
  simpl. now rewrite Hc.
Qed.

Lemma skip_ws_space s : skip_ws (String " " s) = skip_ws s.
Proof. reflexivity. Qed.

Lemma parse_dumps_str k rest :
  parse_string_body (escape k ++ str1 dquote ++ rest) = Some (k, rest).
Proof. apply parse_escape. Qed.

(** One step of the reader, by the first significant character. *)
Lemma parse_value_string fuel s r :
  skip_ws s = String dquote r ->
  parse_value (S fuel) s =
  match parse_string_body r with
  | Some (t, r') => Some (JStr t, r')
  | None => None
  end.
Proof. intros H. cbn [parse_value]. rewrite H. reflexivity. Qed.

Lemma parse_value_array fuel s c r :
  skip_ws s = String "[" (String c r) ->
  is_ws c = false -> Ascii.eqb c "]" = false ->
  parse_value (S fuel) s =
  match parse_elements fuel (String c r) with
  | Some (l, r') => Some (JList l, r')
  | None => None
  end.
Proof.
  intros H Hw Hc. cbn [parse_value]. rewrite H.
  change (Ascii.eqb "[" dquote) with false.
  change (Ascii.eqb "[" "[") with true. cbv iota.
  cbn [skip_ws]. rewrite Hw, Hc. reflexivity.
Qed.

Lemma parse_value_object fuel s r :
  skip_ws s = String "{" (String dquote r) ->
  parse_value (S fuel) s =
  match parse_members fuel (String dquote r) with
  | Some (l, r') => Some (JObj l, r')
  | None => None
  end.
Proof. intros H. cbn [parse_value]. rewrite H. reflexivity. Qed.

Lemma parse_elements_step fuel s x r :
  parse_value fuel s = Some (x, r) ->
  parse_elements (S fuel) s =
  match skip_ws r with
  | String c r' =>
      if Ascii.eqb c "," then
        match parse_elements fuel r' with
        | Some (l, r2) => Some (x :: l, r2)
        | None => None
        end
      else if Ascii.eqb c "]" then Some ([x], r')
      else None
  | EmptyString => None
  end.
Proof. intros H. cbn [parse_elements]. rewrite H. reflexivity. Qed.

Lemma parse_key_dumps k r s :
  skip_ws s = dumps_str k ++ ": " ++ r -> parse_key s = Some (k, String " " r).
Proof.
  intros H. unfold parse_key. rewrite H.
  unfold dumps_str. cbn [append].
  change (Ascii.eqb dquote dquote) with true. cbv iota.
  rewrite app_assoc_str, parse_dumps_str. reflexivity.
Qed.

Lemma parse_members_step fuel s k r0 x r :
  parse_key s = Some (k, r0) ->
  parse_value fuel r0 = Some (x, r) ->
  parse_members (S fuel) s =
  match skip_ws r with
  | String c r' =>
      if Ascii.eqb c "," then
        match parse_members fuel r' with
        | Some (l, r2) => Some ((k, x) :: l, r2)
        | None => None
        end
      else if Ascii.eqb c "}" then Some ([(k, x)], r')
      else None
  | EmptyString => None
  end.
Proof. intros Hk Hv. cbn [parse_members]. rewrite Hk, Hv. reflexivity. Qed.

Lemma parse_dumps_fuel fuel :
  (forall j rest s, weight j <= fuel -> skip_ws s = dumps j ++ rest ->
     parse_value fuel s = Some (j, rest)) /\
  (forall x l rest s, weight_elements (x :: l) <= fuel ->
     skip_ws s = dumps x ++ dumps_elements l ++ rest ->
     parse_elements fuel s = Some (x :: l, rest)) /\
  (forall k x l rest s, weight_pairs ((k, x) :: l) <= fuel ->
     skip_ws s = dumps_str k ++ ": " ++ dumps x ++ dumps_pairs l ++ rest ->
     parse_members fuel s = Some ((k, x) :: l, rest)).
Proof.
  induction fuel as [|fuel (IHv & IHe & IHm)].
  - repeat split; intros; simpl in *; try lia.
    pose proof (weight_pos j); lia.
  - repeat split.
    + intros j rest s Hw Hs.
      destruct j as [t|[|x l]|[|[k x] l]].
      * rewrite (parse_value_string fuel s ((escape t ++ str1 dquote) ++ rest) Hs).
        rewrite app_assoc_str, parse_dumps_str. reflexivity.
      * cbn [parse_value]. rewrite Hs. reflexivity.
      * rewrite dumps_list_cons, !app_assoc_str in Hs.
        destruct (dumps_head x) as (c & tl & E & Hc & Hc' & _).
        rewrite E in Hs. cbn [append] in Hs.
        rewrite (parse_value_array fuel s c _ Hs Hc Hc').
        rewrite (IHe x l rest); [reflexivity| |].
        -- rewrite weight_list in Hw. lia.
        -- cbn [skip_ws]. rewrite Hc, E. reflexivity.
      * cbn [parse_value]. rewrite Hs. reflexivity.
      * rewrite dumps_obj_cons, !app_assoc_str in Hs.
        unfold dumps_str in Hs at 1. cbn [append] in Hs.
        rewrite (parse_value_object fuel s _ Hs).
        rewrite (IHm k x l rest); [reflexivity| |].
        -- rewrite weight_obj in Hw. lia.
        -- reflexivity.
    + intros x l rest s Hw Hs.
      rewrite (parse_elements_step fuel s x (dumps_elements l ++ rest)).
      2:{ apply IHv; [simpl in Hw; lia|exact Hs]. }
      destruct l as [|y l].
      * reflexivity.
      * cbn [dumps_elements]. rewrite !app_assoc_str. cbn [append skip_ws].
        change (is_ws ",") with false. cbv iota.
        change (Ascii.eqb "," ",") with true. cbv iota.
        rewrite (IHe y l rest); [reflexivity| |].
        -- simpl in Hw |- *. lia.
        -- rewrite skip_ws_space. apply skip_ws_dumps.
    + intros k x l rest s Hw Hs.
      rewrite (parse_members_step fuel s k
                 (String " " (dumps x ++ dumps_pairs l ++ rest)) x
                 (dumps_pairs l ++ rest)).
      2:{ apply parse_key_dumps. exact Hs. }
      2:{ apply IHv; [simpl in Hw; lia|]. rewrite skip_ws_space. apply skip_ws_dumps. }
      destruct l as [|[k' y] l].
      * reflexivity.
      * cbn [dumps_pairs]. rewrite !app_assoc_str. cbn [append skip_ws].
        change (is_ws ",") with false. cbv iota.
        change (Ascii.eqb "," ",") with true. cbv iota.
        rewrite (IHm k' y l rest); [reflexivity| |].
        -- simpl in Hw |- *. lia.
        -- rewrite skip_ws_space. reflexivity.
Qed.


(** Induction over a value and the values inside it. *)
Lemma json_nested_ind (P : json -> Prop)
  (Hs : forall t, P (JStr t))
  (Hl : forall l, Forall P l -> P (JList l))
  (Ho : forall m, Forall (fun kv => P (snd kv)) m -> P (JObj m)) :
  forall j, P j.
Proof.
  fix IH 1. intros [t|l|m].
  - apply Hs.
  - apply Hl. induction l as [|x l IHl]; constructor; [apply IH|exact IHl].
  - apply Ho. induction m as [|[k x] m IHm]; constructor; [apply IH|exact IHm].
Qed.

Lemma length_app (a b : string) :
  String.length (a ++ b) = String.length a + String.length b.
Proof. induction a as [|c a IH]; simpl; [reflexivity|now rewrite IH]. Qed.

Lemma weight_elements_lt l :
  Forall (fun x => weight x <= String.length (dumps x)) l ->
  weight_elements l < String.length (dumps_elements l).
Proof.
  induction 1 as [|y l Hy _ IHl].
  - cbn. lia.
  - cbn [weight_elements dumps_elements append String.length].
    rewrite length_app. lia.
Qed.

Lemma weight_pairs_lt m :
  Forall (fun kv => weight (snd kv) <= String.length (dumps (snd kv))) m ->
  weight_pairs m < String.length (dumps_pairs m).
Proof.
  induction 1 as [|[k y] m Hy _ IHm].
  - cbn. lia.
  - cbn [weight_pairs dumps_pairs append String.length snd] in *.
    rewrite length_app. cbn [String.length]. rewrite length_app. lia.
Qed.

Lemma weight_le_length j : weight j <= String.length (dumps j).
Proof.
  induction j as [t|l IH|m IH] using json_nested_ind.
  - cbn. lia.
  - destruct l as [|x l]; [cbn; lia|].
    rewrite dumps_list_cons, weight_list.
    inversion IH as [|? ? Hx Hl]; subst.
    apply weight_elements_lt in Hl.
    cbn [append String.length weight_elements]. rewrite length_app. lia.
  - destruct m as [|[k x] m]; [cbn; lia|].
    rewrite dumps_obj_cons, weight_obj.
    inversion IH as [|? ? Hx Hm]; subst.
    apply weight_pairs_lt in Hm.
    cbn [append String.length weight_pairs snd] in *.
    rewrite length_app. cbn [String.length]. rewrite length_app. lia.
Qed.

Lemma app_empty_r (s : string) : s ++ EmptyString = s.
Proof. induction s as [|c s IH]; simpl; [reflexivity|now rewrite IH]. Qed.

(** Reading the text of a value gives the value back. *)
Lemma loads_dumps j : loads (dumps j) = Some j.
Proof.
  unfold loads.
  destruct (parse_dumps_fuel (S (String.length (dumps j)))) as (Hv & _).
  rewrite (Hv j EmptyString).
  - reflexivity.
  - pose proof (weight_le_length j). lia.
  - rewrite <- (app_empty_r (dumps j)) at 1. rewrite skip_ws_dumps. reflexivity.
Qed.

(** The text of a dict is valid JSON, and under each of its keys (taken once)
    stands the value serialised there. *)
Lemma top_level_dumps members key :
  top_level (dumps (JObj members)) key = assoc key members.
Proof. unfold top_level. now rewrite loads_dumps. Qed.

End JsonFacts.

(** * Facts about the script *)

Section ScriptFacts.

Context {Model Tokenizer Image : Type}.
Implicit Types (w : world Model Tokenizer Image) (c : cmdline)
  (tr : list (event Model Tokenizer Image)).

Lemma printed_app tr1 tr2 : printed (tr1 ++ tr2) = (printed tr1 ++ printed tr2)%list.
Proof.
  induction tr1 as [|e tr1 IH]; [reflexivity|].
  destruct e; simpl; now rewrite IH.
Qed.

Lemma generate_calls_app tr1 tr2 :
  generate_calls (tr1 ++ tr2) = (generate_calls tr1 ++ generate_calls tr2)%list.
Proof.
  induction tr1 as [|e tr1 IH]; [reflexivity|].
  destruct e; simpl; now rewrite IH.
Qed.

(** Unfolding the script down to its events. *)
Ltac unfold_script :=
  unfold exit_status, trace, run, main, parse_args, check_dependencies,
    analyze_image, load_and_prepare, try_import, import_from, print, emit,
    sys_exit, raise, bind, ret in *.

(** The dependency check when both packages resolve: two imports, no output. *)
Lemma check_dependencies_ok w tr :
  importable w "mlx_lm" = true -> importable w "PIL" = true ->
  check_dependencies w tr =
  (Normal tt, (tr ++ [EvImport "mlx_lm" []; EvImport "PIL" ["Image"]])%list).
Proof.
  intros Hm Hp. unfold_script. rewrite Hm, Hp. cbn.
  now rewrite <- app_assoc.
Qed.

(** The dependency check when a package does not resolve: one object
    printed, then [sys.exit(1)]. *)
Lemma check_dependencies_missing w tr :
  importable w "mlx_lm" = false \/ importable w "PIL" = false ->
  check_dependencies w tr =
  (SysExit 1,
   (tr ++ [EvImport "mlx_lm" []; EvImport "PIL" ["Image"];
           EvStdout (dumps (missing_dependencies_object (missing_packages w)))])%list).
Proof.
  intros H. unfold_script. unfold missing_packages, missing_dependencies_object.
  destruct (importable w "mlx_lm"), (importable w "PIL");
    try (destruct H; discriminate); cbn; now rewrite <- !app_assoc.
Qed.


(** Unfolding [main] only: its two callees are used through their lemmas. *)
Ltac unfold_main :=
  unfold exit_status, trace, run, main, parse_args, print, emit, sys_exit,
    bind, ret.

(** What a run in check-only mode does once the command line is accepted. *)
Lemma run_check_deps_ok w c p :
  cl_image c = Some p -> cl_check_deps c = true ->
  importable w "mlx_lm" = true -> importable w "PIL" = true ->
  run (main w c) =
  (0%Z, [EvImport "mlx_lm" []; EvImport "PIL" ["Image"]; EvStdout status_ok_text]).
Proof.
  intros Hi Hc Hm Hp. unfold_main. rewrite Hi. cbn [args_check_deps].
  rewrite Hc, (check_dependencies_ok w [] Hm Hp). reflexivity.
Qed.

(** The second [try] of the analyzer yields [prepared_image] and neither
    prints nor generates. *)
Lemma load_and_prepare_run w path tr :
  exists evs,
    load_and_prepare w path tr = (Normal (prepared_image w path), (tr ++ evs)%list)
    /\ printed evs = [] /\ generate_calls evs = [].
Proof.
  unfold load_and_prepare, prepared_image, bind, emit, ret.
  destruct (Image_open w path) as [image|e].
  - destruct (negb (Image_mode w image =? "RGB")%string).
    + exists [EvImageOpen path; EvImageConvert "RGB"].
      rewrite <- app_assoc. repeat split.
    + exists [EvImageOpen path]. repeat split.
  - exists [EvImageOpen path]. repeat split.
Qed.

(** The three ways the analyzer ends, by the first call that raises. *)
Lemma analyze_image_load_failed w path prompt n tr e :
  importable w "mlx_lm" = true -> importable w "PIL" = true ->
  mlx_load w model_id = Raised e ->
  analyze_image w path prompt n tr =
  (Normal (dumps (model_load_failed_object e)),
   (tr ++ [EvImport "mlx_lm" ["load"; "generate"]; EvImport "PIL" ["Image"];
           EvLoad model_id])%list).
Proof.
  intros Hm Hp Hl. unfold analyze_image, import_from, bind, emit, ret.
  rewrite Hm, Hp, Hl. rewrite <- !app_assoc. reflexivity.
Qed.

Lemma analyze_image_open_failed w path prompt n tr m t e :
  importable w "mlx_lm" = true -> importable w "PIL" = true ->
  mlx_load w model_id = Returned (m, t) ->
  prepared_image w path = Raised e ->
  exists evs,
    analyze_image w path prompt n tr =
    (Normal (dumps (image_load_failed_object e path)), (tr ++ evs)%list)
    /\ printed evs = [] /\ generate_calls evs = [].
Proof.
  intros Hm Hp Hl Hi. unfold analyze_image, import_from, bind, emit, ret.
  rewrite Hm, Hp, Hl.
  destruct (load_and_prepare_run w path
              (((tr ++ [EvImport "mlx_lm" ["load"; "generate"]])
                  ++ [EvImport "PIL" ["Image"]]) ++ [EvLoad model_id])%list)
    as (evs & -> & Hpr & Hg).
  rewrite Hi.
  exists ([EvImport "mlx_lm" ["load"; "generate"]; EvImport "PIL" ["Image"];
           EvLoad model_id] ++ evs)%list.
  rewrite <- !app_assoc. cbn [app printed generate_calls]. auto.
Qed.

Lemma analyze_image_generates w path prompt n tr m t image :
  importable w "mlx_lm" = true -> importable w "PIL" = true ->
  mlx_load w model_id = Returned (m, t) ->
  prepared_image w path = Returned image ->
  let text := match prompt with None => default_prompt | Some x => x end in
  exists evs,
    analyze_image w path prompt n tr =
    (Normal match mlx_generate w m t text [image] n false with
            | Returned response => response
            | Raised e => dumps (generation_failed_object e)
            end,
     (tr ++ evs ++ [EvGenerate m t text [image] n false])%list)
    /\ printed evs = [] /\ generate_calls evs = [].
Proof.
  intros Hm Hp Hl Hi text. unfold analyze_image, import_from, bind, emit, ret.
  rewrite Hm, Hp, Hl.
  destruct (load_and_prepare_run w path
              (((tr ++ [EvImport "mlx_lm" ["load"; "generate"]])
                  ++ [EvImport "PIL" ["Image"]]) ++ [EvLoad model_id])%list)
    as (evs & -> & Hpr & Hg).
  rewrite Hi. fold text.
  exists ([EvImport "mlx_lm" ["load"; "generate"]; EvImport "PIL" ["Image"];
           EvLoad model_id] ++ evs)%list.
  split; [|cbn [app printed generate_calls]; auto].
  destruct (mlx_generate w m t text [image] n false);
    rewrite <- !app_assoc; reflexivity.
Qed.

(** Whatever the libraries do, the analyzer returns a string and prints
    nothing itself. *)
Lemma analyze_image_returns w path prompt n tr :
  importable w "mlx_lm" = true -> importable w "PIL" = true ->
  exists result evs,
    analyze_image w path prompt n tr = (Normal result, (tr ++ evs)%list)
    /\ printed evs = [].
Proof.
  intros Hm Hp.
  destruct (mlx_load w model_id) as [[m t]|e] eqn:Hl.
  - destruct (prepared_image w path) as [image|e] eqn:Hi.
    + destruct (analyze_image_generates w path prompt n tr m t image Hm Hp Hl Hi)
        as (evs & E & Hpr & _).
      eexists _, _. split; [exact E|].
      rewrite printed_app, Hpr. reflexivity.
    + destruct (analyze_image_open_failed w path prompt n tr m t e Hm Hp Hl Hi)
        as (evs & E & Hpr & _).
      eexists _, _. split; [exact E|exact Hpr].
  - eexists _, _. split; [apply analyze_image_load_failed; eassumption|reflexivity].
Qed.

(** A run that gets to the analyzer: existence test, dependency check,
    analysis, one print, exit status 0. *)
Lemma run_analysis w c p result evs :
  cl_image c = Some p -> cl_check_deps c = false -> path_exists w p = Returned true ->
  importable w "mlx_lm" = true -> importable w "PIL" = true ->
  let n := match cl_max_tokens c with Some n => n | None => default_max_tokens end in
  let before := [EvPathExists p; EvImport "mlx_lm" []; EvImport "PIL" ["Image"]] in
  analyze_image w p (cl_prompt c) n before = (Normal result, (before ++ evs)%list) ->
  run (main w c) =
  (0%Z,
   (before ++ evs
    ++ [EvStdout (if cl_json c then dumps (JObj [("result", JStr result)])
                  else result)])%list).
Proof.
  intros Hi Hc He Hm Hp n before Ha. unfold_main. rewrite Hi.
  cbn [args_check_deps args_image args_prompt args_max_tokens args_json].
  rewrite Hc, He. cbn [negb app].
  rewrite (check_dependencies_ok w [EvPathExists p] Hm Hp).
  cbn [app]. fold n. fold before. rewrite Ha.
  destruct (cl_json c); rewrite <- app_assoc; reflexivity.
Qed.

Lemma check_deps_run_printed w c p :
  cl_image c = Some p -> cl_check_deps c = true ->
  importable w "mlx_lm" = true -> importable w "PIL" = true ->
  printed (trace w c) = [status_ok_text].
Proof.
  intros Hi Hc Hm Hp. unfold trace.
  now rewrite (run_check_deps_ok w c p Hi Hc Hm Hp).
Qed.

(** A run stopped by the file-existence test. *)
Lemma run_missing_file w c p :
  cl_image c = Some p -> cl_check_deps c = false -> path_exists w p = Returned false ->
  run (main w c) =
  (1%Z, [EvPathExists p; EvStdout (dumps (file_not_found_object p))]).
Proof.
  intros Hi Hc He. unfold_main. rewrite Hi.
  cbn [args_check_deps args_image]. rewrite Hc, He. reflexivity.
Qed.

(** A run stopped by the dependency check, from either of its call sites. *)
Lemma missing_dependencies_run w :
  importable w "mlx_lm" = false \/ importable w "PIL" = false ->
  forall c p,
    cl_image c = Some p ->
    cl_check_deps c = true \/ path_exists w p = Returned true ->
    printed (trace w c) = [dumps (missing_dependencies_object (missing_packages w))].
Proof.
  intros H c p Hi Hreach. unfold_main. rewrite Hi.
  cbn [args_check_deps args_image].
  destruct (cl_check_deps c).
  - rewrite (check_dependencies_missing w [] H). reflexivity.
  - destruct Hreach as [Hreach|Hreach]; [discriminate|].
    rewrite Hreach. cbn [negb].
    rewrite (check_dependencies_missing w _ H). reflexivity.
Qed.

(** X17. For every image path whose existence test answers false, an
    invocation without [--check-deps] exits with status 1 after printing the
    JSON object whose [error] is [file_not_found] and whose [path] is the
    supplied path; the run consists of the existence test and that one
    print, so neither the dependency check nor the analyzer is reached. *)
Theorem missing_file_exits_1 w c p :
  cl_image c = Some p -> cl_check_deps c = false -> path_exists w p = Returned false ->
  let text := dumps (file_not_found_object p) in
  exit_status w c = 1%Z
  /\ trace w c = [EvPathExists p; EvStdout text]
  /\ top_level text "error" = Some (JStr "file_not_found")
  /\ top_level text "path" = Some (JStr p)
  /\ reached_dependency_check (trace w c) = false
  /\ reached_analysis (trace w c) = false.
Proof.
  intros Hi Hc He text.
  unfold exit_status, trace. rewrite (run_missing_file w c p Hi Hc He).
  cbn [fst snd].
  unfold text, file_not_found_object. rewrite !top_level_dumps.
  repeat split.
Qed.

(** C4 (as amended). When at least one of the two packages does not
    resolve, the dependency check, whenever it runs, prints the object with
    error [missing_dependencies], the list of exactly the missing package
    names and the install command [pip install] followed by those names, and
    ends the process with exit status 1: as a function from any trace, and in
    every run of [main] that gets to it (an accepted command line in
    check-only mode, or with an image whose existence test answers true). *)
Theorem missing_dependencies_exit_1 w :
  importable w "mlx_lm" = false \/ importable w "PIL" = false ->
  let missing := missing_packages w in
  let text := dumps (missing_dependencies_object missing) in
  (forall tr,
     check_dependencies w tr =
     (SysExit 1,
      (tr ++ [EvImport "mlx_lm" []; EvImport "PIL" ["Image"]; EvStdout text])%list))
  /\ (forall name, In name missing <->
        (name = "mlx-lm" /\ importable w "mlx_lm" = false)
        \/ (name = "pillow" /\ importable w "PIL" = false))
  /\ top_level text "error" = Some (JStr "missing_dependencies")
  /\ top_level text "packages" = Some (JList (map JStr missing))
  /\ top_level text "install_command"
      = Some (JStr ("pip install " ++ String.concat " " missing))
  /\ (forall c p,
        cl_image c = Some p ->
        cl_check_deps c = true \/ path_exists w p = Returned true ->
        exit_status w c = 1%Z /\ printed (trace w c) = [text]).
Proof.
  intros H missing text. split; [|split; [|split; [|split; [|split]]]].
  - intros tr. apply check_dependencies_missing. exact H.
  - intros name. unfold missing, missing_packages.
    destruct (importable w "mlx_lm"), (importable w "PIL"); cbn; intuition congruence.
  - unfold text, missing_dependencies_object. now rewrite top_level_dumps.
  - unfold text, missing_dependencies_object. now rewrite top_level_dumps.
  - unfold text, missing_dependencies_object. now rewrite top_level_dumps.
  - intros c p Hi Hreach. unfold_main. rewrite Hi.
    cbn [args_check_deps args_image].
    destruct (cl_check_deps c).
    + rewrite (check_dependencies_missing w [] H). split; reflexivity.
    + destruct Hreach as [Hreach|Hreach]; [discriminate|].
      rewrite Hreach. cbn [negb].
      rewrite (check_dependencies_missing w _ H). split; reflexivity.
Qed.


Lemma stdout_text_printed tr :
  stdout_text tr = String.concat "" (map (fun s => s ++ str1 newline) (printed tr)).
Proof.
  induction tr as [|e tr IH]; [reflexivity|].
  destruct e; cbn [stdout_text printed]; try exact IH.
  rewrite IH. cbn [map]. generalize (map (fun s => s ++ str1 newline) (printed tr)).
  intros [|x l]; cbn [String.concat].
  - now rewrite !app_empty_r.
  - now rewrite app_assoc_str.
Qed.

(** C1 (as amended). With [--json], in every run that gets to the output
    step (an image supplied and existing, no [--check-deps], both packages
    resolvable), the text printed is valid JSON with a top-level [result] key
    whose value is exactly the text printed by the same invocation without
    [--json]; the exit status is the same. *)
Theorem json_envelope_of_analysis w c p :
  cl_json c = true ->
  cl_image c = Some p -> cl_check_deps c = false -> path_exists w p = Returned true ->
  importable w "mlx_lm" = true -> importable w "PIL" = true ->
  json_envelope (printed (trace w c)) (printed (trace w (with_json false c)))
  /\ exit_status w c = exit_status w (with_json false c).
Proof.
  intros Hj Hi Hc He Hm Hp.
  destruct (analyze_image_returns w p (cl_prompt c)
              match cl_max_tokens c with Some n => n | None => default_max_tokens end
              [EvPathExists p; EvImport "mlx_lm" []; EvImport "PIL" ["Image"]] Hm Hp)
    as (result & evs & Ha & Hpr).
  pose proof (run_analysis w c p result evs Hi Hc He Hm Hp Ha) as R1.
  pose proof (run_analysis w (with_json false c) p result evs Hi Hc He Hm Hp Ha) as R2.
  unfold exit_status, trace. rewrite R1, R2, Hj. cbn [fst snd with_json cl_json].
  split; [|reflexivity].
  exists (dumps (JObj [("result", JStr result)])), result.
  rewrite !printed_app, Hpr. repeat split.
  apply top_level_dumps.
Qed.

(** C2. In a run that gets to the analyzer, a failing model load, image open
    (or conversion) or generation call makes [analyze_image] return the
    object tagged [model_load_failed], [image_load_failed] or
    [generation_failed], with the message of the exception and the model
    identifier or the path, instead of raising; the process exits with
    status 0 whatever the analyzer returned. *)
Theorem analyzer_failures_are_returned w c p :
  cl_image c = Some p -> cl_check_deps c = false -> path_exists w p = Returned true ->
  importable w "mlx_lm" = true -> importable w "PIL" = true ->
  let n := match cl_max_tokens c with Some n => n | None => default_max_tokens end in
  let text := match cl_prompt c with Some x => x | None => default_prompt end in
  let returned tr := fst (analyze_image w p (cl_prompt c) n tr) in
  exit_status w c = 0%Z
  /\ (forall e tr, mlx_load w model_id = Raised e ->
        returned tr = Normal (dumps (model_load_failed_object e)))
  /\ (forall m t e tr, mlx_load w model_id = Returned (m, t) ->
        Image_open w p = Raised e ->
        returned tr = Normal (dumps (image_load_failed_object e p)))
  /\ (forall m t image e tr, mlx_load w model_id = Returned (m, t) ->
        Image_open w p = Returned image ->
        (Image_mode w image =? "RGB")%string = false ->
        Image_convert w image "RGB" = Raised e ->
        returned tr = Normal (dumps (image_load_failed_object e p)))
  /\ (forall m t image e tr, mlx_load w model_id = Returned (m, t) ->
        prepared_image w p = Returned image ->
        mlx_generate w m t text [image] n false = Raised e ->
        returned tr = Normal (dumps (generation_failed_object e))).
Proof.
  intros Hi Hc He Hm Hp n text returned.
  split; [|split; [|split; [|split]]].
  - destruct (analyze_image_returns w p (cl_prompt c) n
                [EvPathExists p; EvImport "mlx_lm" []; EvImport "PIL" ["Image"]] Hm Hp)
      as (result & evs & Ha & _).
    unfold exit_status. now rewrite (run_analysis w c p result evs Hi Hc He Hm Hp Ha).
  - intros e tr Hl. unfold returned.
    now rewrite (analyze_image_load_failed w p (cl_prompt c) n tr e Hm Hp Hl).
  - intros m t e tr Hl Ho. unfold returned.
    destruct (analyze_image_open_failed w p (cl_prompt c) n tr m t e Hm Hp Hl)
      as (evs & -> & _); [|reflexivity].
    unfold prepared_image. now rewrite Ho.
  - intros m t image e tr Hl Ho Hmode Hconv. unfold returned.
    destruct (analyze_image_open_failed w p (cl_prompt c) n tr m t e Hm Hp Hl)
      as (evs & -> & _); [|reflexivity].
    unfold prepared_image. now rewrite Ho, Hmode.
  - intros m t image e tr Hl Ho Hg. unfold returned.
    destruct (analyze_image_generates w p (cl_prompt c) n tr m t image Hm Hp Hl Ho)
      as (evs & -> & _).
    fold text. now rewrite Hg.
Qed.

(** C5 (as amended). With [--check-deps], the required [--image] supplied
    and both packages resolvable, the process prints exactly the status
    object and exits with status 0; the run is the two import probes and that
    print, with no file-existence test and no analysis. *)
Theorem check_deps_prints_status_ok w c p :
  cl_image c = Some p -> cl_check_deps c = true ->
  importable w "mlx_lm" = true -> importable w "PIL" = true ->
  exit_status w c = 0%Z
  /\ printed (trace w c) = [status_ok_text]
  /\ stdout_text (trace w c) = status_ok_text ++ str1 newline
  /\ trace w c =
      [EvImport "mlx_lm" []; EvImport "PIL" ["Image"]; EvStdout status_ok_text]
  /\ reached_path_check (trace w c) = false
  /\ reached_analysis (trace w c) = false.
Proof.
  intros Hi Hc Hm Hp. unfold exit_status, trace.
  rewrite (run_check_deps_ok w c p Hi Hc Hm Hp). repeat split.
Qed.


(** The one generation call of a run that gets that far. *)
Lemma generation_call w c p m t image :
  cl_image c = Some p -> cl_check_deps c = false -> path_exists w p = Returned true ->
  importable w "mlx_lm" = true -> importable w "PIL" = true ->
  mlx_load w model_id = Returned (m, t) ->
  prepared_image w p = Returned image ->
  generate_calls (trace w c) =
  [(match cl_prompt c with Some x => x | None => default_prompt end,
    match cl_max_tokens c with Some n => n | None => default_max_tokens end,
    false)].
Proof.
  intros Hi Hc He Hm Hp Hl Ho.
  destruct (analyze_image_generates w p (cl_prompt c)
              match cl_max_tokens c with Some n => n | None => default_max_tokens end
              [EvPathExists p; EvImport "mlx_lm" []; EvImport "PIL" ["Image"]]
              m t image Hm Hp Hl Ho) as (evs & Ha & _ & Hg).
  unfold trace. rewrite (run_analysis w c p _ _ Hi Hc He Hm Hp Ha).
  cbn [snd]. rewrite !generate_calls_app, Hg. reflexivity.
Qed.

(** What a run prints once the model and the image are loaded: what the
    generation call answers to the prompt and the cap of the command line. *)
Lemma generation_printed w c p m t image :
  cl_image c = Some p -> cl_check_deps c = false -> path_exists w p = Returned true ->
  importable w "mlx_lm" = true -> importable w "PIL" = true ->
  mlx_load w model_id = Returned (m, t) ->
  prepared_image w p = Returned image ->
  printed (trace w c) =
  [output_text (cl_json c)
     (generation_outcome
        (mlx_generate w m t
           match cl_prompt c with Some x => x | None => default_prompt end
           [image]
           match cl_max_tokens c with Some n => n | None => default_max_tokens end
           false))].
Proof.
  intros Hi Hc He Hm Hp Hl Ho.
  destruct (analyze_image_generates w p (cl_prompt c)
              match cl_max_tokens c with Some n => n | None => default_max_tokens end
              [EvPathExists p; EvImport "mlx_lm" []; EvImport "PIL" ["Image"]]
              m t image Hm Hp Hl Ho) as (evs & Ha & Hpr & _).
  unfold trace. rewrite (run_analysis w c p _ _ Hi Hc He Hm Hp Ha).
  cbn [snd]. rewrite !printed_app, Hpr. unfold output_text, generation_outcome.
  destruct (cl_json c); reflexivity.
Qed.

(** C6. Once the model and the image are loaded, the analyzer makes one
    generation call, and its prompt is the custom string whenever one is
    supplied and the built-in default exactly when none is. The analyzer
    returns what [generate] answers when applied to that prompt, in every
    world, and the call is recorded with the same prompt: for the analyzer
    called with any arguments, and for the prompt of the command line in a
    run of [main], whose output is that answer. *)
Theorem prompt_is_forwarded w path m t image :
  importable w "mlx_lm" = true -> importable w "PIL" = true ->
  mlx_load w model_id = Returned (m, t) ->
  prepared_image w path = Returned image ->
  (forall x n tr,
     fst (analyze_image w path (Some x) n tr)
     = Normal (generation_outcome (mlx_generate w m t x [image] n false))
     /\ generate_calls (snd (analyze_image w path (Some x) n tr))
        = (generate_calls tr ++ [(x, n, false)])%list)
  /\ (forall n tr,
        fst (analyze_image w path None n tr)
        = Normal (generation_outcome
                    (mlx_generate w m t default_prompt [image] n false))
        /\ generate_calls (snd (analyze_image w path None n tr))
           = (generate_calls tr ++ [(default_prompt, n, false)])%list)
  /\ (forall c, cl_image c = Some path -> cl_check_deps c = false ->
        path_exists w path = Returned true ->
        printed (trace w c)
        = [output_text (cl_json c)
             (generation_outcome
                (mlx_generate w m t
                   match cl_prompt c with Some x => x | None => default_prompt end
                   [image] (effective_max_tokens c) false))]
        /\ map (fun call => fst (fst call)) (generate_calls (trace w c))
           = [match cl_prompt c with Some x => x | None => default_prompt end]).
Proof.
  intros Hm Hp Hl Ho. split; [|split].
  - intros x n tr.
    destruct (analyze_image_generates w path (Some x) n tr m t image Hm Hp Hl Ho)
      as (evs & -> & _ & Hg).
    cbn [fst snd]. split; [reflexivity|]. now rewrite !generate_calls_app, Hg.
  - intros n tr.
    destruct (analyze_image_generates w path None n tr m t image Hm Hp Hl Ho)
      as (evs & -> & _ & Hg).
    cbn [fst snd]. split; [reflexivity|]. now rewrite !generate_calls_app, Hg.
  - intros c Hi Hc He. split.
    + apply (generation_printed w c path m t image Hi Hc He Hm Hp Hl Ho).
    + now rewrite (generation_call w c path m t image Hi Hc He Hm Hp Hl Ho).
Qed.

(** C7. In a run that gets to the generation call, the cap passed as
    [max_tokens] is 2048 when [--max-tokens] is omitted and exactly the
    supplied integer otherwise: the run prints what [generate] answers when
    applied to that cap, in every world, and the call is recorded with it. *)
Theorem max_tokens_is_forwarded w c p m t image :
  cl_image c = Some p -> cl_check_deps c = false -> path_exists w p = Returned true ->
  importable w "mlx_lm" = true -> importable w "PIL" = true ->
  mlx_load w model_id = Returned (m, t) ->
  prepared_image w p = Returned image ->
  let caps := map (fun call => snd (fst call)) (generate_calls (trace w c)) in
  let answer cap :=
    output_text (cl_json c)
      (generation_outcome
         (mlx_generate w m t (effective_prompt c) [image] cap false)) in
  (cl_max_tokens c = None ->
     printed (trace w c) = [answer 2048%Z] /\ caps = [2048%Z])
  /\ (forall n, cl_max_tokens c = Some n ->
        printed (trace w c) = [answer n] /\ caps = [n]).
Proof.
  intros Hi Hc He Hm Hp Hl Ho caps answer. unfold caps, answer, effective_prompt.
  rewrite (generation_call w c p m t image Hi Hc He Hm Hp Hl Ho).
  rewrite (generation_printed w c p m t image Hi Hc He Hm Hp Hl Ho).
  split; [intros ->|intros n ->]; split; reflexivity.
Qed.

(** C8 (as amended). Every invocation whose command line is accepted (the
    required [--image] is there) and whose file-existence test, when the run
    gets to it, answers with a boolean, writes exactly one value to standard
    output, whatever path the run takes: the text of standard output is that
    value and its newline. *)
Theorem one_result_per_accepted_invocation w c p :
  cl_image c = Some p -> path_test_returns w c p ->
  exists value,
    printed (trace w c) = [value]
    /\ stdout_text (trace w c) = value ++ str1 newline.
Proof.
  intros Hi Hret.
  assert (exists value, printed (trace w c) = [value]) as (value & Hv).
  { destruct (cl_check_deps c) eqn:Hc.
    - destruct (importable w "mlx_lm") eqn:Hm; [destruct (importable w "PIL") eqn:Hp|].
      + exists status_ok_text.
        apply (check_deps_run_printed w c p Hi Hc Hm Hp).
      + eexists. apply (missing_dependencies_run w (or_intror Hp) c p Hi). now left.
      + eexists. apply (missing_dependencies_run w (or_introl Hm) c p Hi). now left.
    - destruct Hret as [Hret|[[|] He]]; [congruence| |].
      + destruct (importable w "mlx_lm") eqn:Hm; [destruct (importable w "PIL") eqn:Hp|].
        * destruct (analyze_image_returns w p (cl_prompt c)
              match cl_max_tokens c with Some n => n | None => default_max_tokens end
              [EvPathExists p; EvImport "mlx_lm" []; EvImport "PIL" ["Image"]] Hm Hp)
            as (result & evs & Ha & Hpr).
          eexists. unfold trace.
          rewrite (run_analysis w c p result evs Hi Hc He Hm Hp Ha).
          cbn [snd]. rewrite !printed_app, Hpr. reflexivity.
        * eexists. apply (missing_dependencies_run w (or_intror Hp) c p Hi). now right.
        * eexists. apply (missing_dependencies_run w (or_introl Hm) c p Hi). now right.
      + eexists. unfold trace. rewrite (run_missing_file w c p Hi Hc He). reflexivity. }
  exists value. split; [exact Hv|].
  rewrite stdout_text_printed, Hv. cbn [map String.concat]. reflexivity.
Qed.

(** C9. An invocation with [--check-deps] and no [--image] is rejected by
    argument parsing: a usage error on standard error and exit status 2, with
    nothing on standard output and no dependency check. *)
Theorem check_deps_without_image_is_usage_error w c :
  cl_check_deps c = true -> cl_image c = None ->
  exit_status w c = 2%Z
  /\ exit_status w c <> 0%Z
  /\ trace w c = [EvStderr usage_error]
  /\ printed (trace w c) = []
  /\ reached_dependency_check (trace w c) = false.
Proof.
  intros _ Hi.
  assert (run (main w c) = (2%Z, [EvStderr usage_error])) as R.
  { unfold_main. rewrite Hi. reflexivity. }
  unfold exit_status, trace. rewrite R. cbn [fst snd].
  repeat split. discriminate.
Qed.

(** C10. With [--check-deps] and both packages resolvable, the process
    prints the status object and exits with status 0 even when the image
    path does not exist: the file-existence test is not performed and no
    [file_not_found] object is printed. *)
Theorem check_deps_ignores_missing_file w c p :
  cl_image c = Some p -> cl_check_deps c = true ->
  importable w "mlx_lm" = true -> importable w "PIL" = true ->
  path_exists w p <> Returned true ->
  exit_status w c = 0%Z
  /\ printed (trace w c) = [status_ok_text]
  /\ reached_path_check (trace w c) = false
  /\ ~ In (dumps (file_not_found_object p)) (printed (trace w c)).
Proof.
  intros Hi Hc Hm Hp _. unfold exit_status, trace.
  rewrite (run_check_deps_ok w c p Hi Hc Hm Hp). repeat split.
  cbn. intros [H|[]]. discriminate H.
Qed.

End ScriptFacts.

(** * Concrete runs *)

(** C1, counterexample. [--image missing.png --json] with no such file
    prints the bare [file_not_found] object: valid JSON, no [result] key. *)
Lemma json_envelope_fails_on_missing_file :
  cl_json missing_png_json = true
  /\ printed (trace good_world missing_png_json)
     = [dumps (file_not_found_object "missing.png")]
  /\ top_level (dumps (file_not_found_object "missing.png")) "result" = None
  /\ ~ json_envelope
        (printed (trace good_world missing_png_json))
        (printed (trace good_world (with_json false missing_png_json))).
Proof.
  repeat split.
  intros (text & value & Hj & _ & Hr).
  vm_compute in Hj. injection Hj as <-.
  vm_compute in Hr. discriminate Hr.
Qed.

Lemma json_envelope_of_analysis_witness :
  json_envelope (printed (trace good_world (shot_png true)))
                (printed (trace good_world (shot_png false))).
Proof.
  apply (json_envelope_of_analysis good_world (shot_png true) "shot.png");
    reflexivity.
Defined.

Lemma analyzer_failures_are_returned_witness :
  mlx_load world_load_fails model_id = Raised "no weights"
  /\ exit_status world_load_fails (shot_png false) = 0%Z
  /\ fst (analyze_image world_load_fails "shot.png" None 2048%Z [])
     = Normal (dumps (model_load_failed_object "no weights")).
Proof.
  pose proof (analyzer_failures_are_returned world_load_fails (shot_png false)
                "shot.png" eq_refl eq_refl eq_refl eq_refl eq_refl) as (H0 & H1 & _).
  split; [reflexivity|]. split; [exact H0|].
  apply (H1 "no weights" []). reflexivity.
Defined.

Lemma missing_file_exits_1_witness :
  path_exists good_world "missing.png" = Returned false
  /\ exit_status good_world missing_png_json = 1%Z.
Proof.
  split; [reflexivity|].
  apply (missing_file_exits_1 good_world missing_png_json "missing.png");
    reflexivity.
Defined.

Lemma missing_dependencies_exit_1_witness :
  missing_packages world_without_mlx = ["mlx-lm"]
  /\ exit_status world_without_mlx (shot_png false) = 1%Z.
Proof.
  split; [reflexivity|].
  apply (missing_dependencies_exit_1 world_without_mlx (or_introl eq_refl))
    with (p := "shot.png"); [reflexivity|right; reflexivity].
Defined.

(** C3, the failing input. [--image] with a name of 300 characters, longer
    than a file name may be, so that no such file exists: the existence test
    raises instead of answering false, nothing catches it, and the run ends
    with a traceback and exit status 1 without having printed the
    [file_not_found] object expected for a path that does not exist. *)
Theorem long_name_is_not_reported :
  cl_image long_name_invocation = Some long_name
  /\ cl_check_deps long_name_invocation = false
  /\ String.length long_name = 300
  /\ path_exists good_world long_name = Raised "File name too long"
  /\ fst (main good_world long_name_invocation [])
     = Uncaught "File name too long"
  /\ exit_status good_world long_name_invocation = 1%Z
  /\ printed (trace good_world long_name_invocation) = []
  /\ printed (trace good_world long_name_invocation)
     <> [dumps (file_not_found_object long_name)].
Proof.
  repeat split; try (vm_compute; reflexivity).
  vm_compute. discriminate.
Qed.

(** C4, counterexample. With the inference runtime missing,
    [--image missing.png] prints the [file_not_found] object without ever
    probing the packages, and [--check-deps] alone is a usage error with exit
    status 2: in neither run does the dependency check print its object. *)
Lemma missing_dependencies_not_always_reported :
  importable world_without_mlx "mlx_lm" = false
  /\ printed (trace world_without_mlx missing_png)
     = [dumps (file_not_found_object "missing.png")]
  /\ reached_dependency_check (trace world_without_mlx missing_png) = false
  /\ ~ (exit_status world_without_mlx missing_png = 1%Z
        /\ printed (trace world_without_mlx missing_png)
           = [dumps (missing_dependencies_object
                       (missing_packages world_without_mlx))])
  /\ ~ (exit_status world_without_mlx bare_check_deps = 1%Z
        /\ printed (trace world_without_mlx bare_check_deps)
           = [dumps (missing_dependencies_object
                       (missing_packages world_without_mlx))]).
Proof.
  repeat split.
  - intros [_ H]. vm_compute in H. discriminate H.
  - intros [H _]. vm_compute in H. discriminate H.
Qed.

(** C5, counterexample. [--check-deps] alone, everything installed: argument
    parsing stops the run with exit status 2 and nothing on standard output. *)
Lemma bare_check_deps_is_rejected :
  cl_check_deps bare_check_deps = true
  /\ importable good_world "mlx_lm" = true
  /\ importable good_world "PIL" = true
  /\ exit_status good_world bare_check_deps = 2%Z
  /\ printed (trace good_world bare_check_deps) = []
  /\ ~ (exit_status good_world bare_check_deps = 0%Z
        /\ printed (trace good_world bare_check_deps) = [status_ok_text]).
Proof.
  repeat split. intros [H _]. vm_compute in H. discriminate H.
Qed.

Lemma check_deps_prints_status_ok_witness :
  exit_status good_world (invocation (Some "shot.png") None None true false) = 0%Z
  /\ printed (trace good_world (invocation (Some "shot.png") None None true false))
     = [status_ok_text].
Proof.
  pose proof (check_deps_prints_status_ok good_world
                (invocation (Some "shot.png") None None true false) "shot.png"
                eq_refl eq_refl eq_refl eq_refl) as (H0 & H1 & _).
  split; [exact H0|exact H1].
Defined.

Lemma prompt_is_forwarded_witness :
  printed (trace recording_world
             (invocation (Some "shot.png") (Some "X") None false false))
  = ["X / 2048 / quiet"]
  /\ map (fun call => fst (fst call))
       (generate_calls
          (trace recording_world
             (invocation (Some "shot.png") (Some "X") None false false)))
     = ["X"].
Proof.
  pose proof (prompt_is_forwarded recording_world "shot.png" tt tt tt
                eq_refl eq_refl eq_refl eq_refl) as (_ & _ & H).
  apply (H (invocation (Some "shot.png") (Some "X") None false false));
    reflexivity.
Defined.

Lemma max_tokens_is_forwarded_witness :
  (printed (trace recording_world
              (invocation (Some "shot.png") (Some "X") (Some 10%Z) false false))
   = ["X / 10 / quiet"]
   /\ map (fun call => snd (fst call))
        (generate_calls
           (trace recording_world
              (invocation (Some "shot.png") (Some "X") (Some 10%Z) false false)))
      = [10%Z])
  /\ (printed (trace recording_world
                 (invocation (Some "shot.png") (Some "X") None false false))
      = ["X / 2048 / quiet"]
      /\ map (fun call => snd (fst call))
           (generate_calls
              (trace recording_world
                 (invocation (Some "shot.png") (Some "X") None false false)))
         = [2048%Z]).
Proof.
  split.
  - refine (proj2 (max_tokens_is_forwarded recording_world
                     (invocation (Some "shot.png") (Some "X") (Some 10%Z) false false)
                     "shot.png" tt tt tt _ _ _ _ _ _ _) 10%Z _); reflexivity.
  - refine (proj1 (max_tokens_is_forwarded recording_world
                     (invocation (Some "shot.png") (Some "X") None false false)
                     "shot.png" tt tt tt _ _ _ _ _ _ _) _); reflexivity.
Defined.

(** C8, counterexample. [--check-deps] alone writes nothing to standard
    output: the usage error goes to standard error. *)
Lemma bare_invocation_prints_no_result :
  printed (trace good_world bare_check_deps) = []
  /\ stdout_text (trace good_world bare_check_deps) = EmptyString
  /\ ~ (exists value, printed (trace good_world bare_check_deps) = [value]).
Proof.
  repeat split. intros (value & H). vm_compute in H. discriminate H.
Qed.

Lemma one_result_per_accepted_invocation_witness :
  exists value,
    printed (trace good_world (shot_png true)) = [value]
    /\ stdout_text (trace good_world (shot_png true)) = value ++ str1 newline.
Proof.
  apply (one_result_per_accepted_invocation good_world (shot_png true) "shot.png").
  - reflexivity.
  - right. exists true. reflexivity.
Defined.

Lemma check_deps_without_image_is_usage_error_witness :
  exit_status good_world bare_check_deps = 2%Z.
Proof.
  apply (check_deps_without_image_is_usage_error good_world bare_check_deps);
    reflexivity.
Defined.

Lemma check_deps_ignores_missing_file_witness :
  path_exists good_world "missing.png" <> Returned true
  /\ exit_status good_world
       (invocation (Some "missing.png") None None true false) = 0%Z.
Proof.
  assert (path_exists good_world "missing.png" <> Returned true) as H
    by (vm_compute; discriminate).
  split; [exact H|].
  apply (check_deps_ignores_missing_file good_world
           (invocation (Some "missing.png") None None true false) "missing.png");
    [reflexivity|reflexivity|reflexivity|reflexivity|exact H].
Defined.

(** * More about the JSON text: what it is made of *)

Section JsonTextFacts.

Lemma all_printable_app a b :
  all_printable (a ++ b) = all_printable a && all_printable b.
Proof.
  induction a as [|c a IH]; [reflexivity|].
  cbn [append all_printable]. now rewrite IH, andb_assoc.
Qed.

Lemma escape_char_printable c : all_printable (escape_char c) = true.
Proof. destruct c as [[] [] [] [] [] [] [] []]; reflexivity. Qed.

Lemma escape_printable s : all_printable (escape s) = true.
Proof.
  induction s as [|c s IH]; [reflexivity|].
  cbn [escape]. now rewrite all_printable_app, escape_char_printable, IH.
Qed.

Lemma dumps_str_printable s : all_printable (dumps_str s) = true.
Proof.
  unfold dumps_str. cbn [all_printable].
  now rewrite all_printable_app, escape_printable.
Qed.

Lemma dumps_elements_printable l :
  Forall (fun x => all_printable (dumps x) = true) l ->
  all_printable (dumps_elements l) = true.
Proof.
  induction 1 as [|x l Hx _ IH]; [reflexivity|].
  cbn [dumps_elements append all_printable].
  now rewrite all_printable_app, Hx, IH.
Qed.

Lemma dumps_pairs_printable l :
  Forall (fun kv => all_printable (dumps (snd kv)) = true) l ->
  all_printable (dumps_pairs l) = true.
Proof.
  induction 1 as [|[k x] l Hx _ IH]; [reflexivity|].
  cbn [dumps_pairs append all_printable snd] in *.
  rewrite all_printable_app, dumps_str_printable.
  cbn [append all_printable andb].
  now rewrite all_printable_app, Hx, IH.
Qed.

(** Whatever the strings inside a value, its text is made of the characters
    from space to tilde: it holds no newline. *)
Lemma dumps_printable j : all_printable (dumps j) = true.
Proof.
  induction j as [t|l IH|m IH] using json_nested_ind.
  - apply dumps_str_printable.
  - destruct l as [|x l]; [reflexivity|].
    rewrite dumps_list_cons. inversion IH as [|? ? Hx Hl]; subst.
    cbn [append all_printable].
    now rewrite all_printable_app, Hx, (dumps_elements_printable l Hl).
  - destruct m as [|[k x] m]; [reflexivity|].
    rewrite dumps_obj_cons. inversion IH as [|? ? Hx Hm]; subst.
    cbn [append all_printable snd] in *.
    rewrite all_printable_app, dumps_str_printable.
    cbn [append all_printable andb].
    now rewrite all_printable_app, Hx, (dumps_pairs_printable m Hm).
Qed.

End JsonTextFacts.

(** * More about the script: every path through [main] *)

Section PathFacts.

Context {Model Tokenizer Image : Type}.
Implicit Types (w : world Model Tokenizer Image) (c : cmdline)
  (tr : list (event Model Tokenizer Image)).

Lemma load_and_prepare_events w path tr :
  load_and_prepare w path tr =
  (Normal (prepared_image w path), (tr ++ prepare_events w path)%list).
Proof.
  unfold load_and_prepare, prepared_image, prepare_events, bind, emit, ret.
  destruct (Image_open w path) as [image|e]; [|reflexivity].
  destruct (negb (Image_mode w image =? "RGB")%string); [|reflexivity].
  now rewrite <- app_assoc.
Qed.

(** The analyzer, once its imports resolve: result and events in full. *)
Lemma analyze_image_events w path prompt n tr :
  importable w "mlx_lm" = true -> importable w "PIL" = true ->
  let text := match prompt with None => default_prompt | Some x => x end in
  analyze_image w path prompt n tr =
  match mlx_load w model_id with
  | Raised e =>
      (Normal (dumps (model_load_failed_object e)), (tr ++ analysis_prefix)%list)
  | Returned (m, t) =>
      match prepared_image w path with
      | Raised e =>
          (Normal (dumps (image_load_failed_object e path)),
           (tr ++ analysis_prefix ++ prepare_events w path)%list)
      | Returned image =>
          (Normal match mlx_generate w m t text [image] n false with
                  | Returned response => response
                  | Raised e => dumps (generation_failed_object e)
                  end,
           (tr ++ analysis_prefix ++ prepare_events w path
            ++ [EvGenerate m t text [image] n false])%list)
      end
  end.
Proof.
  intros Hm Hp text. unfold analyze_image, import_from, bind, emit, ret.
  rewrite Hm, Hp. fold text.
  destruct (mlx_load w model_id) as [[m t]|e].
  - rewrite load_and_prepare_events.
    destruct (prepared_image w path) as [image|e].
    + destruct (mlx_generate w m t text [image] n false);
        unfold analysis_prefix; rewrite <- !app_assoc; reflexivity.
    + unfold analysis_prefix. rewrite <- !app_assoc. reflexivity.
  - unfold analysis_prefix. rewrite <- !app_assoc. reflexivity.
Qed.

(** [main] computes [expected_run]. *)
Lemma main_run w c : run (main w c) = expected_run w c.
Proof.
  unfold expected_run.
  destruct (cl_image c) as [p|] eqn:Hi.
  2:{ unfold run, main, parse_args, bind, emit, sys_exit. now rewrite Hi. }
  destruct (cl_check_deps c) eqn:Hc.
  - destruct (importable w "mlx_lm") eqn:Hm; [destruct (importable w "PIL") eqn:Hp|].
    + apply (run_check_deps_ok w c p Hi Hc Hm Hp).
    + unfold run, main, parse_args, print, emit, sys_exit, bind, ret.
      rewrite Hi. cbn [args_check_deps]. rewrite Hc.
      rewrite (check_dependencies_missing w [] (or_intror Hp)). reflexivity.
    + unfold run, main, parse_args, print, emit, sys_exit, bind, ret.
      rewrite Hi. cbn [args_check_deps]. rewrite Hc.
      rewrite (check_dependencies_missing w [] (or_introl Hm)). reflexivity.
  - destruct (path_exists w p) as [[|]|e] eqn:He.
    2:{ apply (run_missing_file w c p Hi Hc He). }
    2:{ unfold run, main, parse_args, print, emit, sys_exit, raise, bind, ret.
        rewrite Hi. cbn [args_check_deps args_image]. rewrite Hc, He. reflexivity. }
    assert (forall H : importable w "mlx_lm" = false \/ importable w "PIL" = false,
              run (main w c) =
              (1%Z, (EvPathExists p :: dependency_probes
                     ++ [EvStdout (dumps (missing_dependencies_object
                                            (missing_packages w)))])%list)) as Hmiss.
    { intros H. unfold run, main, parse_args, print, emit, sys_exit, bind, ret.
      rewrite Hi. cbn [args_check_deps args_image]. rewrite Hc, He. cbn [negb].
      rewrite (check_dependencies_missing w _ H). reflexivity. }
    destruct (importable w "mlx_lm") eqn:Hm; [destruct (importable w "PIL") eqn:Hp|];
      cbn [andb negb]; [|apply Hmiss; now right|apply Hmiss; now left].
    pose proof (analyze_image_events w p (cl_prompt c) (effective_max_tokens c)
                  (EvPathExists p :: dependency_probes) Hm Hp) as Ha.
    cbn zeta in Ha. fold (effective_prompt c) in Ha.
    destruct (mlx_load w model_id) as [[m t]|e].
    + destruct (prepared_image w p) as [image|e].
      * rewrite (run_analysis w c p _ _ Hi Hc He Hm Hp Ha).
        rewrite <- !app_assoc. reflexivity.
      * rewrite (run_analysis w c p _ _ Hi Hc He Hm Hp Ha).
        rewrite <- !app_assoc. reflexivity.
    + rewrite (run_analysis w c p _ _ Hi Hc He Hm Hp Ha). reflexivity.
Qed.


(** The views of a trace distribute over concatenation. *)
Lemma stderr_lines_app tr1 tr2 :
  stderr_lines (tr1 ++ tr2) = (stderr_lines tr1 ++ stderr_lines tr2)%list.
Proof. induction tr1 as [|e tr1 IH]; [reflexivity|]. destruct e; simpl; now rewrite IH. Qed.

Lemma load_calls_app tr1 tr2 :
  load_calls (tr1 ++ tr2) = (load_calls tr1 ++ load_calls tr2)%list.
Proof. induction tr1 as [|e tr1 IH]; [reflexivity|]. destruct e; simpl; now rewrite IH. Qed.

Lemma open_calls_app tr1 tr2 :
  open_calls (tr1 ++ tr2) = (open_calls tr1 ++ open_calls tr2)%list.
Proof. induction tr1 as [|e tr1 IH]; [reflexivity|]. destruct e; simpl; now rewrite IH. Qed.

Lemma convert_calls_app tr1 tr2 :
  convert_calls (tr1 ++ tr2) = (convert_calls tr1 ++ convert_calls tr2)%list.
Proof. induction tr1 as [|e tr1 IH]; [reflexivity|]. destruct e; simpl; now rewrite IH. Qed.

Lemma path_checks_app tr1 tr2 :
  path_checks (tr1 ++ tr2) = (path_checks tr1 ++ path_checks tr2)%list.
Proof. induction tr1 as [|e tr1 IH]; [reflexivity|]. destruct e; simpl; now rewrite IH. Qed.

Lemma generate_images_app tr1 tr2 :
  generate_images (tr1 ++ tr2) = (generate_images tr1 ++ generate_images tr2)%list.
Proof. induction tr1 as [|e tr1 IH]; [reflexivity|]. destruct e; simpl; now rewrite IH. Qed.

Lemma effects_app tr1 tr2 : effects (tr1 ++ tr2) = (effects tr1 ++ effects tr2)%list.
Proof. induction tr1 as [|e tr1 IH]; [reflexivity|]. destruct e; simpl; now rewrite IH. Qed.

(** What the second [try] of the analyzer shows in each view. *)
Lemma prepare_events_views w path :
  printed (prepare_events w path) = []
  /\ stderr_lines (prepare_events w path) = []
  /\ load_calls (prepare_events w path) = []
  /\ open_calls (prepare_events w path) = [path]
  /\ path_checks (prepare_events w path) = []
  /\ generate_calls (prepare_events w path) = []
  /\ generate_images (prepare_events w path) = []
  /\ effects (prepare_events w path) = prepare_events w path.
Proof.
  unfold prepare_events.
  destruct (Image_open w path) as [image|e];
    [destruct (negb (Image_mode w image =? "RGB")%string)|]; repeat split.
Qed.

(** Reading a view off a closed-form trace. *)
Ltac read_trace w p :=
  unfold dependency_probes, analysis_prefix;
  let V1 := fresh in let V2 := fresh in let V3 := fresh in let V4 := fresh in
  let V5 := fresh in let V6 := fresh in let V7 := fresh in let V8 := fresh in
  destruct (prepare_events_views w p) as (V1 & V2 & V3 & V4 & V5 & V6 & V7 & V8);
  repeat progress
    (cbn [app printed stderr_lines load_calls open_calls path_checks
            generate_calls generate_images effects convert_calls];
     rewrite ?printed_app, ?stderr_lines_app, ?load_calls_app, ?open_calls_app,
       ?path_checks_app, ?generate_calls_app, ?generate_images_app, ?effects_app,
       ?V1, ?V2, ?V3, ?V4, ?V5, ?V6, ?V7, ?V8);
  clear V1 V2 V3 V4 V5 V6 V7 V8.

(** X1. An accepted invocation exits with status 0 exactly when both
    packages resolve and the run is in check-only mode or the image exists;
    otherwise it exits with status 1. *)
Theorem exit_status_of_accepted_invocation w c p :
  cl_image c = Some p ->
  (exit_status w c = 0%Z <->
     importable w "mlx_lm" = true /\ importable w "PIL" = true
     /\ (cl_check_deps c = true \/ path_exists w p = Returned true))
  /\ (exit_status w c = 0%Z \/ exit_status w c = 1%Z).
Proof.
  intros Hi. unfold exit_status. rewrite main_run. unfold expected_run. rewrite Hi.
  destruct (cl_check_deps c), (importable w "mlx_lm"), (importable w "PIL"),
    (path_exists w p) as [[|]|pe]; cbn;
    intuition (discriminate || congruence || auto).
Qed.

(** X2. The [--json] flag never changes the exit status, nor anything the
    run does besides what it prints. *)
Theorem json_flag_changes_only_the_print w c b :
  exit_status w (with_json b c) = exit_status w c
  /\ effects (trace w (with_json b c)) = effects (trace w c).
Proof.
  unfold exit_status, trace. rewrite !main_run. unfold expected_run.
  unfold effective_prompt, effective_max_tokens.
  cbn [with_json cl_image cl_prompt cl_max_tokens cl_check_deps cl_json].
  destruct (cl_image c) as [p|]; [|split; reflexivity].
  destruct (cl_check_deps c), (importable w "mlx_lm"), (importable w "PIL"),
    (path_exists w p) as [[|]|pe]; cbn [andb negb fst snd]; try (split; reflexivity).
  split; [reflexivity|].
  destruct (mlx_load w model_id) as [[m t]|e];
    [destruct (prepared_image w p) as [image|e]|]; read_trace w p; reflexivity.
Qed.

(** X3. Whenever the run is in check-only mode or ends with a nonzero
    status, [--json] is ignored altogether: the run is the same with and
    without it. *)
Theorem json_flag_ignored_on_early_exit w c b :
  cl_check_deps c = true \/ exit_status w c <> 0%Z ->
  trace w (with_json b c) = trace w c.
Proof.
  unfold exit_status, trace. rewrite !main_run. unfold expected_run.
  cbn [with_json cl_image cl_prompt cl_max_tokens cl_check_deps cl_json].
  destruct (cl_image c) as [p|]; [|reflexivity].
  destruct (cl_check_deps c), (importable w "mlx_lm"), (importable w "PIL"),
    (path_exists w p) as [[|]|pe]; cbn [andb negb fst snd]; try reflexivity.
  intros [H|H]; [discriminate|now elim H].
Qed.

(** X4. In check-only mode the run depends on nothing but which packages
    resolve: two accepted command lines with [--check-deps] behave alike,
    whatever their image path, prompt, token cap and [--json]. *)
Theorem check_deps_mode_ignores_other_options w c c' p p' :
  cl_image c = Some p -> cl_image c' = Some p' ->
  cl_check_deps c = true -> cl_check_deps c' = true ->
  exit_status w c = exit_status w c' /\ trace w c = trace w c'.
Proof.
  intros Hi Hi' Hc Hc'. unfold exit_status, trace. rewrite !main_run.
  unfold expected_run. rewrite Hi, Hi', Hc, Hc'.
  destruct (importable w "mlx_lm" && importable w "PIL"); split; reflexivity.
Qed.


(** The trace of a run that gets to the analyzer. *)
Lemma reaches_analyzer_run w c p :
  reaches_analyzer w c p ->
  run (main w c) =
  (0%Z,
   (EvPathExists p :: dependency_probes ++ analysis_prefix
    ++ match mlx_load w model_id with
       | Raised e =>
           [EvStdout (output_text (cl_json c) (dumps (model_load_failed_object e)))]
       | Returned (m, t) =>
           prepare_events w p
           ++ match prepared_image w p with
              | Raised e =>
                  [EvStdout (output_text (cl_json c)
                               (dumps (image_load_failed_object e p)))]
              | Returned image =>
                  [EvGenerate m t (effective_prompt c) [image]
                     (effective_max_tokens c) false;
                   EvStdout
                     (output_text (cl_json c)
                        match mlx_generate w m t (effective_prompt c)
                                [image] (effective_max_tokens c) false with
                        | Returned response => response
                        | Raised e => dumps (generation_failed_object e)
                        end)]
              end
       end)%list).
Proof.
  intros (Hi & Hc & He & Hm & Hp). rewrite main_run. unfold expected_run.
  rewrite Hi, Hc, He, Hm, Hp. reflexivity.
Qed.

(** X5. When the model loads, the image opens and generation returns, the
    generated text is printed as it is: alone in plain mode, and as the
    string under the only key [result] with [--json]; the exit status is 0. *)
Theorem generated_text_is_printed_verbatim w c p m t image response :
  reaches_analyzer w c p ->
  mlx_load w model_id = Returned (m, t) ->
  prepared_image w p = Returned image ->
  mlx_generate w m t (effective_prompt c) [image] (effective_max_tokens c) false
  = Returned response ->
  exit_status w c = 0%Z
  /\ (cl_json c = false ->
      printed (trace w c) = [response]
      /\ stdout_text (trace w c) = response ++ str1 newline)
  /\ (cl_json c = true ->
      exists text,
        printed (trace w c) = [text]
        /\ loads text = Some (JObj [("result", JStr response)])).
Proof.
  intros Hreach Hl Ho Hg. unfold exit_status, trace.
  rewrite (reaches_analyzer_run w c p Hreach), Hl, Ho, Hg. cbn [fst snd].
  split; [reflexivity|]. split; intros Hj; rewrite Hj; cbn [output_text].
  - assert (printed
              (EvPathExists p :: dependency_probes ++ analysis_prefix
               ++ prepare_events w p
               ++ [EvGenerate m t (effective_prompt c) [image]
                     (effective_max_tokens c) false; EvStdout response])
            = [response]) as Hpr by (read_trace w p; reflexivity).
    split; [exact Hpr|].
    rewrite stdout_text_printed, Hpr. reflexivity.
  - eexists. split; [read_trace w p; reflexivity|apply loads_dumps].
Qed.

(** X6. The generation call receives exactly one image: the opened image
    itself when its mode is RGB, with no conversion, and otherwise the image
    that converting it to RGB returned. The run prints what [generate]
    answers when applied to that one image, in every world, and the call is
    recorded with it. *)
Theorem generation_receives_the_rgb_image w c p m t opened :
  reaches_analyzer w c p ->
  mlx_load w model_id = Returned (m, t) ->
  Image_open w p = Returned opened ->
  let answer images :=
    output_text (cl_json c)
      (generation_outcome
         (mlx_generate w m t (effective_prompt c) images
            (effective_max_tokens c) false)) in
  (Image_mode w opened = "RGB" ->
     convert_calls (trace w c) = []
     /\ generate_images (trace w c) = [[opened]]
     /\ printed (trace w c) = [answer [opened]])
  /\ (forall converted,
        Image_mode w opened <> "RGB" ->
        Image_convert w opened "RGB" = Returned converted ->
        convert_calls (trace w c) = ["RGB"]
        /\ generate_images (trace w c) = [[converted]]
        /\ printed (trace w c) = [answer [converted]]).
Proof.
  intros Hreach Hl Ho answer. unfold answer, generation_outcome, trace.
  rewrite (reaches_analyzer_run w c p Hreach), Hl. cbn [snd].
  unfold prepared_image, prepare_events. rewrite Ho. split.
  - intros Hmode. rewrite Hmode. cbn. repeat split.
  - intros converted Hmode Hconv.
    apply String.eqb_neq in Hmode. rewrite Hmode, Hconv. cbn. repeat split.
Qed.

(** X7. No run repeats anything: the path test, the model load, the image
    open, the generation call and the print each happen at most once; the
    only model ever asked for is the fixed identifier, the only file tested
    or opened is the supplied path, and generation is never verbose. *)
Theorem nothing_happens_twice w c :
  (length (path_checks (trace w c)) <= 1
   /\ Forall (fun q => cl_image c = Some q) (path_checks (trace w c)))
  /\ (length (load_calls (trace w c)) <= 1
      /\ Forall (fun id => id = model_id) (load_calls (trace w c)))
  /\ (length (open_calls (trace w c)) <= 1
      /\ Forall (fun q => cl_image c = Some q) (open_calls (trace w c)))
  /\ (length (generate_calls (trace w c)) <= 1
      /\ Forall (fun call => snd call = false) (generate_calls (trace w c)))
  /\ length (printed (trace w c)) <= 1.
Proof.
  unfold trace. rewrite main_run. unfold expected_run.
  destruct (cl_image c) as [p|]; [|cbn; repeat split; auto].
  destruct (cl_check_deps c), (importable w "mlx_lm"), (importable w "PIL"),
    (path_exists w p) as [[|]|pe]; cbn [andb negb snd];
    try (cbn; repeat split; auto; fail).
  destruct (mlx_load w model_id) as [[m t]|e];
    [destruct (prepared_image w p) as [image|e]|];
    read_trace w p; cbn [length]; repeat split; auto.
Qed.

(** X8. The analyzer stops at the first call that fails: after a failed
    model load the image is never opened, and after a failed load or a
    failed image open or conversion nothing is generated. *)
Theorem analyzer_stops_at_first_failure w c p :
  reaches_analyzer w c p ->
  (forall e, mlx_load w model_id = Raised e ->
     open_calls (trace w c) = [] /\ generate_calls (trace w c) = [])
  /\ (forall m t e, mlx_load w model_id = Returned (m, t) ->
        prepared_image w p = Raised e ->
        load_calls (trace w c) = [model_id]
        /\ open_calls (trace w c) = [p] /\ generate_calls (trace w c) = []).
Proof.
  intros Hreach. unfold trace. rewrite (reaches_analyzer_run w c p Hreach).
  cbn [snd]. split.
  - intros e ->. read_trace w p. split; reflexivity.
  - intros m t e -> ->. read_trace w p. repeat split.
Qed.

(** X9. When the existence test on the image path raises, which it does
    outside every [try], the exception leaves [main]: nothing is written to
    standard output, the exit status is 1, and neither the dependency check
    nor the analyzer is reached. *)
Theorem path_test_error_leaves_main w c p e :
  cl_image c = Some p -> cl_check_deps c = false ->
  path_exists w p = Raised e ->
  fst (main w c []) = Uncaught e
  /\ exit_status w c = 1%Z
  /\ printed (trace w c) = []
  /\ reached_dependency_check (trace w c) = false
  /\ reached_analysis (trace w c) = false.
Proof.
  intros Hi Hc He.
  unfold exit_status, trace, run, main, parse_args, print, emit, sys_exit,
    raise, bind, ret.
  rewrite Hi. cbn [args_check_deps args_image]. rewrite Hc, He. repeat split.
Qed.

(** X10. The analyzer never writes to standard output, never tests a path
    and never calls [sys.exit], whatever the libraries do and whether or not
    they are installed; it only adds events to the trace. *)
Theorem analyzer_never_prints_or_exits w path prompt n tr :
  printed (snd (analyze_image w path prompt n tr)) = printed tr
  /\ path_checks (snd (analyze_image w path prompt n tr)) = path_checks tr
  /\ (forall status, fst (analyze_image w path prompt n tr) <> SysExit status)
  /\ exists evs, snd (analyze_image w path prompt n tr) = (tr ++ evs)%list.
Proof.
  destruct (importable w "mlx_lm") eqn:Hm; [destruct (importable w "PIL") eqn:Hp|].
  - rewrite (analyze_image_events w path prompt n tr Hm Hp).
    destruct (mlx_load w model_id) as [[m t]|e];
      [destruct (prepared_image w path) as [image|e]|]; cbn [fst snd];
      (split; [read_trace w path; now rewrite app_nil_r|]);
      (split; [read_trace w path; now rewrite app_nil_r|]);
      (split; [discriminate|eexists; reflexivity]).
  - unfold analyze_image, import_from, bind, emit, raise, ret. rewrite Hm, Hp.
    cbn [fst snd]. rewrite <- app_assoc, printed_app, path_checks_app.
    cbn. rewrite !app_nil_r. repeat split; [discriminate|eexists; reflexivity].
  - unfold analyze_image, import_from, bind, emit, raise, ret. rewrite Hm.
    cbn [fst snd]. rewrite printed_app, path_checks_app.
    cbn. rewrite !app_nil_r. repeat split; [discriminate|eexists; reflexivity].
Qed.

(** X11. Called where one of its libraries does not resolve, the analyzer
    raises at its import statements, which stand outside every [try]: no
    error object is returned, and the model is neither loaded nor used. *)
Theorem analyzer_raises_without_its_libraries w path prompt n tr :
  importable w "mlx_lm" = false \/ importable w "PIL" = false ->
  (exists exc, fst (analyze_image w path prompt n tr) = Uncaught exc)
  /\ load_calls (snd (analyze_image w path prompt n tr)) = load_calls tr
  /\ open_calls (snd (analyze_image w path prompt n tr)) = open_calls tr
  /\ generate_calls (snd (analyze_image w path prompt n tr)) = generate_calls tr.
Proof.
  intros H. unfold analyze_image, import_from, bind, emit, raise, ret.
  destruct (importable w "mlx_lm") eqn:Hm.
  - destruct H as [H|H]; [discriminate|]. rewrite H. cbn [fst snd].
    rewrite <- app_assoc, load_calls_app, open_calls_app, generate_calls_app.
    cbn. rewrite !app_nil_r. repeat split. eexists; reflexivity.
  - cbn [fst snd]. rewrite load_calls_app, open_calls_app, generate_calls_app.
    cbn. rewrite !app_nil_r. repeat split. eexists; reflexivity.
Qed.

(** X12. With its libraries installed the analyzer always returns a string,
    and that string is either the text generation returned or the JSON text
    of the [model_load_failed], [image_load_failed] or [generation_failed]
    object that carries the message of the exception the failing call
    raised, with the model identifier or the path. *)
Theorem analyzer_returns_text_or_error_object w path prompt n tr :
  importable w "mlx_lm" = true -> importable w "PIL" = true ->
  let text := match prompt with None => default_prompt | Some x => x end in
  exists result,
    fst (analyze_image w path prompt n tr) = Normal result
    /\ ((exists m t image,
           mlx_load w model_id = Returned (m, t)
           /\ prepared_image w path = Returned image
           /\ mlx_generate w m t text [image] n false = Returned result)
        \/ (exists e,
              mlx_load w model_id = Raised e
              /\ result = dumps (model_load_failed_object e))
        \/ (exists m t e,
              mlx_load w model_id = Returned (m, t)
              /\ prepared_image w path = Raised e
              /\ result = dumps (image_load_failed_object e path))
        \/ (exists m t image e,
              mlx_load w model_id = Returned (m, t)
              /\ prepared_image w path = Returned image
              /\ mlx_generate w m t text [image] n false = Raised e
              /\ result = dumps (generation_failed_object e))).
Proof.
  intros Hm Hp text. rewrite (analyze_image_events w path prompt n tr Hm Hp).
  fold text.
  destruct (mlx_load w model_id) as [[m t]|e] eqn:Hl.
  - destruct (prepared_image w path) as [image|e] eqn:Ho.
    + destruct (mlx_generate w m t text [image] n false) as [response|e] eqn:Hg.
      * exists response. split; [reflexivity|]. left. now exists m, t, image.
      * eexists. split; [reflexivity|]. right. right. right.
        now exists m, t, image, e.
    + eexists. split; [reflexivity|]. right. right. left. now exists m, t, e.
  - eexists. split; [reflexivity|]. right. left. now exists e.
Qed.

(** X13. With [--json], what the analyzer returned travels as a string
    under [result], the only key of the printed object: an error object of
    the analyzer is not nested in the envelope, and the envelope itself has
    no [error] key. *)
Theorem json_envelope_holds_one_string w c p result :
  reaches_analyzer w c p -> cl_json c = true ->
  fst (analyze_image w p (cl_prompt c) (effective_max_tokens c) []) = Normal result ->
  exists text,
    printed (trace w c) = [text]
    /\ loads text = Some (JObj [("result", JStr result)])
    /\ top_level text "error" = None.
Proof.
  intros Hreach Hj Hr.
  pose proof Hreach as (_ & _ & _ & Hm & Hp).
  rewrite (analyze_image_events w p (cl_prompt c) (effective_max_tokens c) [] Hm Hp)
    in Hr.
  fold (effective_prompt c) in Hr.
  exists (dumps (JObj [("result", JStr result)])).
  split; [|split; [apply loads_dumps|now rewrite top_level_dumps]].
  unfold trace. rewrite (reaches_analyzer_run w c p Hreach), Hj. cbn [snd output_text].
  destruct (mlx_load w model_id) as [[m t]|e];
    [destruct (prepared_image w p) as [image|e]|];
    cbn [fst] in Hr; injection Hr as <-; read_trace w p; reflexivity.
Qed.

(** X14. Standard output is exactly one line of characters from space to
    tilde in every accepted run that prints JSON text: with [--json], in
    check-only mode, and whenever the exit status is 1, provided the
    existence test, when the run gets to it, answers with a boolean. *)
Theorem json_output_is_one_line w c p :
  cl_image c = Some p -> path_test_returns w c p ->
  cl_json c = true \/ cl_check_deps c = true \/ exit_status w c = 1%Z ->
  exists line,
    stdout_text (trace w c) = line ++ str1 newline
    /\ all_printable line = true.
Proof.
  intros Hi Hret H.
  assert (exists line, printed (trace w c) = [line] /\ all_printable line = true)
    as (line & Hpr & Hline).
  { revert H Hret. unfold path_test_returns, exit_status, trace.
    rewrite main_run. unfold expected_run. rewrite Hi.
    destruct (cl_check_deps c), (importable w "mlx_lm"), (importable w "PIL"),
      (path_exists w p) as [[|]|pe]; cbn [andb negb fst snd]; intros H Hret;
      try (destruct Hret as [Hret|[b Hret]]; discriminate Hret);
      try (eexists; split; [reflexivity|apply dumps_printable]);
      try (eexists; split; [reflexivity|reflexivity]).
    destruct H as [Hj|[H|H]]; try discriminate. rewrite Hj. cbn [output_text].
    destruct (mlx_load w model_id) as [[m t]|e];
      [destruct (prepared_image w p) as [image|e]|];
      (eexists; split; [read_trace w p; reflexivity|apply dumps_printable]). }
  exists line. split; [|exact Hline].
  rewrite stdout_text_printed, Hpr. reflexivity.
Qed.

(** X15. An accepted run that ends with status 1, its existence test (when
    reached) having answered with a boolean, has printed exactly one JSON
    object, whose [error] is [file_not_found] or [missing_dependencies]. *)
Theorem exit_1_prints_a_fatal_error_object w c p :
  cl_image c = Some p -> path_test_returns w c p -> exit_status w c = 1%Z ->
  exists text kind,
    printed (trace w c) = [text]
    /\ top_level text "error" = Some (JStr kind)
    /\ (kind = "file_not_found" \/ kind = "missing_dependencies").
Proof.
  intros Hi Hret. revert Hret. unfold path_test_returns, exit_status, trace.
  rewrite main_run. unfold expected_run. rewrite Hi.
  destruct (cl_check_deps c), (importable w "mlx_lm"), (importable w "PIL"),
    (path_exists w p) as [[|]|pe]; cbn [andb negb fst snd]; intros Hret H;
    try discriminate H;
    try (destruct Hret as [Hret|[b Hret]]; discriminate Hret);
    eexists _, _;
    (split; [reflexivity|]);
    unfold missing_dependencies_object, file_not_found_object;
    rewrite top_level_dumps; cbn; auto.
Qed.

(** X16. The dependency check always probes both packages, in the same
    order, before it decides; it returns exactly when both resolve, having
    printed nothing, and otherwise exits with status 1. *)
Theorem dependency_check_outcomes w tr :
  (fst (check_dependencies w tr) = Normal tt <->
     importable w "mlx_lm" = true /\ importable w "PIL" = true)
  /\ (fst (check_dependencies w tr) = Normal tt
      \/ fst (check_dependencies w tr) = SysExit 1)
  /\ (fst (check_dependencies w tr) = Normal tt ->
      printed (snd (check_dependencies w tr)) = printed tr)
  /\ exists evs,
       snd (check_dependencies w tr) = (tr ++ dependency_probes ++ evs)%list.
Proof.
  destruct (importable w "mlx_lm") eqn:Hm; [destruct (importable w "PIL") eqn:Hp|].
  - rewrite (check_dependencies_ok w tr Hm Hp). cbn [fst snd].
    repeat split; auto.
    + intros _. rewrite printed_app. cbn. now rewrite app_nil_r.
    + exists []. now rewrite app_nil_r.
  - rewrite (check_dependencies_missing w tr (or_intror Hp)). cbn [fst snd].
    repeat split; auto; try discriminate; try (intros [_ H]; discriminate H).
    eexists. reflexivity.
  - rewrite (check_dependencies_missing w tr (or_introl Hm)). cbn [fst snd].
    repeat split; auto; try discriminate; try (intros [H _]; discriminate H).
    eexists. reflexivity.
Qed.

End PathFacts.

(** * Concrete runs of the further facts *)

Lemma exit_status_of_accepted_invocation_witness :
  exit_status good_world (shot_png false) = 0%Z
  /\ exit_status good_world missing_png_json = 1%Z.
Proof.
  split.
  - apply (proj1 (exit_status_of_accepted_invocation good_world (shot_png false)
                    "shot.png" eq_refl)).
    repeat split. now right.
  - destruct (proj2 (exit_status_of_accepted_invocation good_world missing_png_json
                       "missing.png" eq_refl)) as [H|H]; [discriminate H|exact H].
Defined.

Lemma json_flag_ignored_on_early_exit_witness :
  trace good_world (with_json false missing_png_json)
  = trace good_world missing_png_json.
Proof.
  apply (json_flag_ignored_on_early_exit good_world missing_png_json false).
  right. discriminate.
Defined.

Lemma check_deps_mode_ignores_other_options_witness :
  trace good_world (invocation (Some "missing.png") (Some "X") (Some 10%Z) true true)
  = trace good_world (invocation (Some "shot.png") None None true false).
Proof.
  apply (check_deps_mode_ignores_other_options good_world
           (invocation (Some "missing.png") (Some "X") (Some 10%Z) true true)
           (invocation (Some "shot.png") None None true false)
           "missing.png" "shot.png"); reflexivity.
Defined.

Lemma generated_text_is_printed_verbatim_witness :
  printed (trace good_world (shot_png false)) = [markdown].
Proof.
  refine (proj1 (proj1 (proj2 (generated_text_is_printed_verbatim good_world
                   (shot_png false) "shot.png" tt tt tt markdown _ _ _ _)) _));
    repeat split.
Defined.

Lemma generation_receives_the_rgb_image_witness :
  Image_mode world_rgba false <> "RGB"
  /\ convert_calls (trace world_rgba (shot_png false)) = ["RGB"]
  /\ generate_images (trace world_rgba (shot_png false)) = [[true]]
  /\ printed (trace world_rgba (shot_png false)) = ["one RGB image"].
Proof.
  assert (Image_mode world_rgba false <> "RGB") as Hmode by discriminate.
  split; [exact Hmode|].
  refine (proj2 (generation_receives_the_rgb_image world_rgba (shot_png false)
                   "shot.png" tt tt false _ _ _) true Hmode _);
    repeat split.
Defined.

Lemma path_test_error_leaves_main_witness :
  path_exists good_world long_name = Raised "File name too long"
  /\ exit_status good_world long_name_invocation = 1%Z
  /\ printed (trace good_world long_name_invocation) = [].
Proof.
  assert (path_exists good_world long_name = Raised "File name too long") as He
    by (vm_compute; reflexivity).
  split; [exact He|].
  pose proof (path_test_error_leaves_main good_world long_name_invocation
                long_name "File name too long" eq_refl eq_refl He)
    as (_ & H1 & H2 & _).
  split; [exact H1|exact H2].
Defined.

Lemma analyzer_stops_at_first_failure_witness :
  open_calls (trace world_load_fails (shot_png false)) = []
  /\ generate_calls (trace world_load_fails (shot_png false)) = [].
Proof.
  refine (proj1 (analyzer_stops_at_first_failure world_load_fails (shot_png false)
                   "shot.png" _) "no weights" _);
    repeat split.
Defined.

Lemma analyzer_raises_without_its_libraries_witness :
  exists exc,
    fst (analyze_image world_without_mlx "shot.png" None 2048%Z []) = Uncaught exc.
Proof.
  refine (proj1 (analyzer_raises_without_its_libraries world_without_mlx
                   "shot.png" None 2048%Z [] _)).
  left. reflexivity.
Defined.

Lemma analyzer_returns_text_or_error_object_witness :
  exists result,
    fst (analyze_image world_load_fails "shot.png" None 2048%Z []) = Normal result
    /\ ((exists m t image,
           mlx_load world_load_fails model_id = Returned (m, t)
           /\ prepared_image world_load_fails "shot.png" = Returned image
           /\ mlx_generate world_load_fails m t default_prompt [image] 2048%Z false
              = Returned result)
        \/ (exists e,
              mlx_load world_load_fails model_id = Raised e
              /\ result = dumps (model_load_failed_object e))
        \/ (exists m t e,
              mlx_load world_load_fails model_id = Returned (m, t)
              /\ prepared_image world_load_fails "shot.png" = Raised e
              /\ result = dumps (image_load_failed_object e "shot.png"))
        \/ (exists m t image e,
              mlx_load world_load_fails model_id = Returned (m, t)
              /\ prepared_image world_load_fails "shot.png" = Returned image
              /\ mlx_generate world_load_fails m t default_prompt [image] 2048%Z false
                 = Raised e
              /\ result = dumps (generation_failed_object e))).
Proof.
  apply (analyzer_returns_text_or_error_object world_load_fails "shot.png" None
           2048%Z []); reflexivity.
Defined.

Lemma json_envelope_holds_one_string_witness :
  exists text,
    printed (trace world_load_fails (shot_png true)) = [text]
    /\ loads text
       = Some (JObj [("result", JStr (dumps (model_load_failed_object "no weights")))])
    /\ top_level text "error" = None.
Proof.
  apply (json_envelope_holds_one_string world_load_fails (shot_png true) "shot.png");
    repeat split.
Defined.

Lemma json_output_is_one_line_witness :
  exists line,
    stdout_text (trace good_world (shot_png true)) = line ++ str1 newline
    /\ all_printable line = true.
Proof.
  apply (json_output_is_one_line good_world (shot_png true) "shot.png");
    [reflexivity|right; exists true; reflexivity|left; reflexivity].
Defined.

Lemma exit_1_prints_a_fatal_error_object_witness :
  exists text kind,
    printed (trace good_world missing_png_json) = [text]
    /\ top_level text "error" = Some (JStr kind)
    /\ (kind = "file_not_found" \/ kind = "missing_dependencies").
Proof.
  apply (exit_1_prints_a_fatal_error_object good_world missing_png_json "missing.png");
    [reflexivity|right; exists false; reflexivity|reflexivity].
Defined.
